(** * finetune_generation.py: the LLaMA finetuning driver

    A shallow embedding of [examples/language_model/llama/finetune_generation.py].
    The script is a driver: it reads three argument dataclasses, looks at the
    output directory, and then calls the framework in sequence.  The embedding
    keeps exactly that: [main] is a computation in a small writer-and-exception
    monad whose log is the sequence of framework calls the script performs, with
    the arguments it passes, and whose outcome is a normal return or the raised
    exception.  What the framework does inside its calls is not modelled; the
    values it hands back ([os.path.isdir], [get_last_checkpoint], [os.listdir],
    the parsed dataclasses) are read from a [world]. *)

From Stdlib Require Import List Sorted String Ascii ZArith NArith Bool Lia PrimFloat.
Import ListNotations.
Local Open Scope string_scope.
Local Open Scope Z_scope.
Local Open Scope list_scope.

Set Implicit Arguments.
Set Warnings "-inexact-float".

(* ------------------------------------------------------------------ *)
(** ** Python strings as sequences of code points *)

Module PyStr.

(** A Python [str] is a sequence of Unicode code points. *)
Definition t := list N.

Definition of_string (s : string) : t :=
  map N_of_ascii (list_ascii_of_string s).

(** [str.isspace] on one code point (CPython's [_PyUnicode_IsWhitespace]). *)
Definition is_whitespace (c : N) : bool :=
  ((9 <=? c) && (c <=? 13) || (28 <=? c) && (c <=? 32)
   || (c =? 133) || (c =? 160) || (c =? 5760)
   || (8192 <=? c) && (c <=? 8202)
   || (c =? 8232) || (c =? 8233) || (c =? 8239) || (c =? 8287)
   || (c =? 12288))%N.

Definition mem (chars : t) (c : N) : bool := existsb (N.eqb c) chars.

Fixpoint lstrip_by (p : N -> bool) (s : t) : t :=
  match s with
  | [] => []
  | c :: s' => if p c then lstrip_by p s' else s
  end.

Definition rstrip_by (p : N -> bool) (s : t) : t :=
  rev (lstrip_by p (rev s)).

(** [s.strip()] when [chars] is [None], [s.strip(chars)] otherwise: the
    longest run of matching code points is dropped at each end. *)
Definition strip (chars : option t) (s : t) : t :=
  let p := match chars with
           | None => is_whitespace
           | Some cs => mem cs
           end in
  rstrip_by p (lstrip_by p s).

End PyStr.

(* ------------------------------------------------------------------ *)
(** ** The argument dataclasses *)

(** [DataArgument] (lines 38-56).  [always_pad_to_max_length] is not a declared
    field: [main] sets it as an attribute after parsing, so it is absent
    ([None]) on a freshly parsed object. *)
Record DataArgument := {
  task_name : string;
  src_length : Z;
  tgt_length : Z;
  min_tgt_length : Z;
  length_penalty : float;
  no_repeat_ngram_size : Z;
  num_beams : Z;
  select_topk : bool;
  top_p : float;
  top_k : Z;
  always_pad_to_max_length : option bool
}.

Definition DataArgument_default : DataArgument := {|
  task_name := "squad";
  src_length := 1024;
  tgt_length := 142;
  min_tgt_length := 0;
  length_penalty := 0.7%float;
  no_repeat_ngram_size := 3;
  num_beams := 5;
  select_topk := true;
  top_p := 0.0%float;
  top_k := 0;
  always_pad_to_max_length := None
|}.

(** [ModelArgument] (lines 59-71). *)
Record ModelArgument := {
  model_name_or_path : string;
  lr_decay_ratio : float;
  lora : bool;
  use_flash_attention : bool;
  eval_with_do_generation : bool;
  prefix_tuning : bool
}.

Definition ModelArgument_default : ModelArgument := {|
  model_name_or_path := "facebook/llama-7b";
  lr_decay_ratio := 0.1%float;
  lora := false;
  use_flash_attention := false;
  eval_with_do_generation := true;
  prefix_tuning := false
|}.

(** The attributes of the framework's [TrainingArguments] that the script
    reads.  [ta_lr_decay_ratio] is the attribute [main] adds with [setattr]. *)
Record TrainingArguments := {
  device : string;
  local_rank : Z;
  world_size : Z;
  fp16 : bool;
  bf16 : bool;
  fp16_opt_level : string;
  output_dir : string;
  do_train : bool;
  do_eval : bool;
  overwrite_output_dir : bool;
  resume_from_checkpoint : option string;
  pipeline_parallel_degree : Z;
  tensor_parallel_degree : Z;
  tensor_parallel_rank : Z;
  recompute : bool;
  ta_lr_decay_ratio : option float
}.

Definition set_lr_decay_ratio (a : TrainingArguments) (r : float)
  : TrainingArguments :=
  {| device := device a; local_rank := local_rank a;
     world_size := world_size a; fp16 := fp16 a; bf16 := bf16 a;
     fp16_opt_level := fp16_opt_level a; output_dir := output_dir a;
     do_train := do_train a; do_eval := do_eval a;
     overwrite_output_dir := overwrite_output_dir a;
     resume_from_checkpoint := resume_from_checkpoint a;
     pipeline_parallel_degree := pipeline_parallel_degree a;
     tensor_parallel_degree := tensor_parallel_degree a;
     tensor_parallel_rank := tensor_parallel_rank a;
     recompute := recompute a;
     ta_lr_decay_ratio := Some r |}.

Definition set_always_pad_to_max_length (d : DataArgument) (b : bool)
  : DataArgument :=
  {| task_name := task_name d; src_length := src_length d;
     tgt_length := tgt_length d; min_tgt_length := min_tgt_length d;
     length_penalty := length_penalty d;
     no_repeat_ngram_size := no_repeat_ngram_size d;
     num_beams := num_beams d; select_topk := select_topk d;
     top_p := top_p d; top_k := top_k d;
     always_pad_to_max_length := Some b |}.

(* ------------------------------------------------------------------ *)
(** ** Framework objects, as the script builds them *)

Inductive model_class := AutoModelForCausalLM | LlamaForCausalLMPipe.

(** Keyword arguments of [model_class.from_pretrained] (lines 125-135). *)
Record pretrained_kwargs := {
  load_state_as_np : bool;
  low_cpu_mem_usage : bool;
  pk_dtype : string;
  pk_tensor_parallel_degree : Z;
  pk_tensor_parallel_rank : Z;
  pk_fp16_opt_level : string;
  pk_use_flash_attention : bool;
  use_recompute : bool
}.

(** [LoRAConfig(...)] (lines 139-146). *)
Record LoRAConfig := {
  target_modules : list string;
  r : Z;
  lora_alpha : Z;
  merge_weights : bool;
  lc_tensor_parallel_degree : Z;
  lc_dtype : string
}.

(** [m.config.<name>], read off a model the script holds. *)
Inductive config_attr (M : Type) := ConfigAttr (m : M) (name : string).

(** [PrefixConfig(...)] (lines 152-160). *)
Record PrefixConfig (M : Type) := {
  num_prefix_tokens : Z;
  num_attention_heads : config_attr M;
  num_hidden_layers : config_attr M;
  hidden_size : config_attr M;
  prefix_projection : bool;
  prefix_projection_hidden_size : config_attr M;
  pc_dtype : string
}.

(** The model object bound to the script's variable [model]. *)
#[warnings="-register-all"]
Inductive model :=
| Pretrained (cls : model_class) (name : string) (kw : pretrained_kwargs)
| LoRAModel (m : model) (lora_config : LoRAConfig)
| PrefixModelForCausalLM (m : model) (prefix_config : PrefixConfig model)
    (postprocess_past_key_value : string).

(** The tokenizer object; [pad_token] is either what [from_pretrained] left
    there or, after line 173, the tokenizer's own [unk_token]. *)
Inductive pad_token_value := PadAsLoaded | PadIsUnkToken.

Record tokenizer := {
  tok_name : string;
  padding_side : string;
  pad_token : pad_token_value
}.

(** [partial(convert_example, tokenizer=..., data_args=...)], possibly with
    [is_test] bound on top (lines 178-185). *)
Record trans_func := {
  tf_tokenizer : tokenizer;
  tf_data_args : DataArgument;
  tf_is_test : option bool
}.

Inductive dataset :=
| Split (task : string) (split : string)
| Mapped (ds : dataset) (f : trans_func).

(** [partial(compute_metrics_trainer, tokenizer=tokenizer)] (lines 206-209). *)
Inductive metrics_func := ComputeMetricsTrainer (tok : tokenizer).

(** Keyword arguments of [LlamaTrainer(...)] (lines 211-222). *)
Record trainer_kwargs := {
  tr_model : model;
  tr_args : TrainingArguments;
  train_dataset : option dataset;
  eval_dataset : option dataset;
  tr_tokenizer : tokenizer;
  compute_metrics_arg : option metrics_func;
  do_generation : bool;
  data_collator : tokenizer
}.

(* ------------------------------------------------------------------ *)
(** ** Calls into the framework and the operating system *)

(** One constructor per call the script makes, carrying the arguments the
    script passes. *)
Inductive event :=
| ParseArgsIntoDataclasses
| PrintConfig (section : string)
| SetDevice (dev : string)
| SetSeed (args : TrainingArguments)
| LoggerWarning (rank : Z) (dev : string) (world : Z)
    (distributed : bool) (sixteen_bits : bool)
| OsPathIsdir (path : string)
| GetLastCheckpoint (path : string)
| OsListdir (path : string)
| LoggerInfo (checkpoint : string)
| ModelFromPretrained (cls : model_class) (name : string)
    (kw : pretrained_kwargs)
| NewLoRAModel (m : model) (lora_config : LoRAConfig)
| MarkOnlyLoraAsTrainable
| NewPrefixModel (m : model) (prefix_config : PrefixConfig model)
| MarkOnlyPrefixAsTrainable
| PrintTrainableParameters
| TokenizerFromPretrained (name : string) (side : string)
| LoadDataset (task : string) (splits : list string)
| DatasetMap (ds : dataset) (f : trans_func)
| NewDataCollator (tok : tokenizer)
| NewLlamaTrainer (kw : trainer_kwargs)
| TrainerTrain (resume : option string)
| TrainerSaveModel (merge_tensor_parallel : bool)
| TrainerLogMetrics (split : string)
| TrainerSaveMetrics (split : string)
| TrainerSaveState
| TrainerEvaluate.

Inductive exn :=
| ValueError (msg : string)
| UnboundLocalError (name : string).

(** What the script finds around it: the dataclasses the parser returns and
    the state of the file system. *)
Record world := {
  parsed : ModelArgument * DataArgument * TrainingArguments;
  isdir : string -> bool;
  last_checkpoint_in : string -> option string;
  listdir : string -> list string
}.

(* ------------------------------------------------------------------ *)
(** ** The script monad: a log of calls and a return or a raise *)

Inductive outcome (A : Type) :=
| Returned (a : A)
| Raised (e : exn).

Arguments Raised {A} e.

Definition M (A : Type) : Type := list event * outcome A.

Definition ret {A} (a : A) : M A := ([], Returned a).

Definition raise {A} (e : exn) : M A := ([], Raised e).

Definition bind {A B} (m : M A) (k : A -> M B) : M B :=
  match m with
  | (t, Returned a) => let (t', o) := k a in (t ++ t', o)
  | (t, Raised e) => (t, Raised e)
  end.

(** A call whose result is [a]. *)
Definition call {A} (e : event) (a : A) : M A := ([e], Returned a).

Definition trace {A} (m : M A) : list event := fst m.
Definition result {A} (m : M A) : outcome A := snd m.

Definition returns {A} (m : M A) : bool :=
  match result m with Returned _ => true | Raised _ => false end.

Declare Scope script_scope.
Delimit Scope script_scope with script.
Notation "x <- m ;; k" := (bind m (fun x => k))
  (at level 61, m at next level, right associativity) : script_scope.
Notation "m ;; k" := (bind m (fun _ => k))
  (at level 61, right associativity) : script_scope.
Notation "' pat <- m ;; k" := (bind m (fun x => match x with pat => k end))
  (at level 61, pat pattern, m at next level, right associativity)
  : script_scope.
Local Open Scope script_scope.

(** A statement under [if b:] with no [else]. *)
Definition when (b : bool) (m : M unit) : M unit :=
  if b then m else ret tt.

(** Reading a local variable that an earlier [if] may have left unbound. *)
Definition lookup {A} (name : string) (v : option A) : M A :=
  match v with
  | Some a => ret a
  | None => raise (UnboundLocalError name)
  end.

Definition is_none {A} (v : option A) : bool :=
  match v with None => true | Some _ => false end.

(* ------------------------------------------------------------------ *)
(** ** [main], block by block *)

(** Lines 75-93: parse the dataclasses, set the two extra attributes, select
    the device, seed, and log the process summary. *)
Definition parse_and_configure (w : world)
  : M (ModelArgument * DataArgument * TrainingArguments) :=
  '(model_args, data_args, training_args) <-
     call ParseArgsIntoDataclasses (parsed w) ;;
  let data_args := set_always_pad_to_max_length data_args false in
  call (PrintConfig "Model") tt ;;
  call (PrintConfig "Data") tt ;;
  let training_args :=
    set_lr_decay_ratio training_args (lr_decay_ratio model_args) in
  call (SetDevice (device training_args)) tt ;;
  call (SetSeed training_args) tt ;;
  call (LoggerWarning (local_rank training_args) (device training_args)
          (world_size training_args)
          (negb (local_rank training_args =? -1))
          (fp16 training_args || bf16 training_args)) tt ;;
  ret (model_args, data_args, training_args).

Definition output_dir_message (dir : string) : string :=
  ("Output directory (" ++ dir ++ ") already exists and is not empty. "
   ++ "Use --overwrite_output_dir to overcome.")%string.

(** Lines 95-108: "Detecting last checkpoint."  The value is the script's
    [last_checkpoint]. *)
Definition detect_last_checkpoint (w : world) (training_args : TrainingArguments)
  : M (option string) :=
  let last_checkpoint : option string := None in
  exists_dir <- call (OsPathIsdir (output_dir training_args))
                     (isdir w (output_dir training_args)) ;;
  if exists_dir && do_train training_args
     && negb (overwrite_output_dir training_args)
  then
    last_checkpoint <-
      call (GetLastCheckpoint (output_dir training_args))
           (last_checkpoint_in w (output_dir training_args)) ;;
    crowded <-
      (if is_none last_checkpoint then
         entries <- call (OsListdir (output_dir training_args))
                         (listdir w (output_dir training_args)) ;;
         ret (Z.of_nat (List.length entries) >? 1)
       else ret false) ;;
    if crowded then
      raise (ValueError (output_dir_message (output_dir training_args)))
    else
      match last_checkpoint with
      | Some found =>
          when (is_none (resume_from_checkpoint training_args))
               (call (LoggerInfo found) tt) ;;
          ret last_checkpoint
      | None => ret last_checkpoint
      end
  else ret last_checkpoint.

(** Lines 110-116: "Set the dtype for loading model". *)
Definition select_dtype (training_args : TrainingArguments) : string :=
  let dtype := "float32" in
  if String.eqb (fp16_opt_level training_args) "O2" then
    let dtype := if fp16 training_args then "float16" else dtype in
    let dtype := if bf16 training_args then "bfloat16" else dtype in
    dtype
  else dtype.

Definition pipeline_message : string :=
  "Plese set eval_with_do_generation to false in pipeline parallel mode.".

(** Lines 118-122. *)
Definition select_model_class (model_args : ModelArgument)
    (training_args : TrainingArguments) : M model_class :=
  let model_class := AutoModelForCausalLM in
  if pipeline_parallel_degree training_args >? 1 then
    if eval_with_do_generation model_args && do_eval training_args then
      raise (ValueError pipeline_message)
    else ret LlamaForCausalLMPipe
  else ret model_class.

(** Lines 124-135: "Load the pretrained language model." *)
Definition load_pretrained (cls : model_class) (model_args : ModelArgument)
    (training_args : TrainingArguments) (dtype : string) : M model :=
  let kw := {| load_state_as_np := true;
               low_cpu_mem_usage := true;
               pk_dtype := dtype;
               pk_tensor_parallel_degree := tensor_parallel_degree training_args;
               pk_tensor_parallel_rank := tensor_parallel_rank training_args;
               pk_fp16_opt_level := fp16_opt_level training_args;
               pk_use_flash_attention := use_flash_attention model_args;
               use_recompute := recompute training_args |} in
  call (ModelFromPretrained cls (model_name_or_path model_args) kw)
       (Pretrained cls (model_name_or_path model_args) kw).

(** Lines 137-149. *)
Definition apply_lora (model_args : ModelArgument)
    (training_args : TrainingArguments) (dtype : string) (m : model)
  : M model :=
  if lora model_args then
    let lora_config :=
      {| target_modules := [".*q_proj.*"; ".*v_proj.*"];
         r := 4;
         lora_alpha := 8;
         merge_weights := false;
         lc_tensor_parallel_degree := tensor_parallel_degree training_args;
         lc_dtype := dtype |} in
    m <- call (NewLoRAModel m lora_config) (LoRAModel m lora_config) ;;
    call MarkOnlyLoraAsTrainable tt ;;
    call PrintTrainableParameters tt ;;
    ret m
  else ret m.

(** Lines 151-167. *)
Definition apply_prefix_tuning (model_args : ModelArgument) (dtype : string)
    (m : model) : M model :=
  if prefix_tuning model_args then
    let prefix_config :=
      {| num_prefix_tokens := 10;
         num_attention_heads := ConfigAttr m "n_head";
         num_hidden_layers := ConfigAttr m "n_layer";
         hidden_size := ConfigAttr m "hidden_size";
         prefix_projection := true;
         prefix_projection_hidden_size := ConfigAttr m "hidden_size";
         pc_dtype := dtype |} in
    m <- call (NewPrefixModel m prefix_config)
              (PrefixModelForCausalLM m prefix_config
                 "llama_postprocess_past_key_value") ;;
    call MarkOnlyPrefixAsTrainable tt ;;
    call PrintTrainableParameters tt ;;
    ret m
  else ret m.

(** Lines 169-173. *)
Definition load_tokenizer (model_args : ModelArgument) : M tokenizer :=
  tok <- call (TokenizerFromPretrained (model_name_or_path model_args) "left")
              {| tok_name := model_name_or_path model_args;
                 padding_side := "left";
                 pad_token := PadAsLoaded |} ;;
  ret {| tok_name := tok_name tok;
         padding_side := padding_side tok;
         pad_token := PadIsUnkToken |}.

(** Lines 175-185: "Load the dataset."  [train_ds], [dev_ds] and [trans_func]
    are bound only under the first [if]; the result gives the two dataset
    variables as they stand after line 185, [None] for an unbound name. *)
Definition build_datasets (model_args : ModelArgument) (data_args : DataArgument)
    (training_args : TrainingArguments) (tok : tokenizer)
  : M (option dataset * option dataset) :=
  '(train_ds, dev_ds, trans) <-
     (if do_train training_args || do_eval training_args then
        call (LoadDataset (task_name data_args) ["train_v1"; "dev_v1"]) tt ;;
        ret (Some (Split (task_name data_args) "train_v1"),
             Some (Split (task_name data_args) "dev_v1"),
             Some {| tf_tokenizer := tok; tf_data_args := data_args;
                     tf_is_test := None |})
      else ret (None, None, None)) ;;
  train_ds <-
    (if do_train training_args then
       ds <- lookup "train_ds" train_ds ;;
       f <- lookup "trans_func" trans ;;
       ds <- call (DatasetMap ds f) (Mapped ds f) ;;
       ret (Some ds)
     else ret train_ds) ;;
  dev_ds <-
    (if do_eval training_args then
       let is_test := eval_with_do_generation model_args in
       ds <- lookup "dev_ds" dev_ds ;;
       f <- lookup "trans_func" trans ;;
       let f := {| tf_tokenizer := tf_tokenizer f;
                   tf_data_args := tf_data_args f;
                   tf_is_test := Some is_test |} in
       ds <- call (DatasetMap ds f) (Mapped ds f) ;;
       ret (Some ds)
     else ret dev_ds) ;;
  ret (train_ds, dev_ds).

(** Lines 187-222: the collator, the metrics closure and the trainer. *)
Definition make_trainer (model_args : ModelArgument)
    (training_args : TrainingArguments) (m : model) (tok : tokenizer)
    (train_ds dev_ds : option dataset) : M trainer_kwargs :=
  collate_fn <- call (NewDataCollator tok) tok ;;
  let compute_metrics_func := ComputeMetricsTrainer tok in
  train_dataset <-
    (if do_train training_args then
       ds <- lookup "train_ds" train_ds ;; ret (Some ds)
     else ret None) ;;
  eval_dataset <-
    (if do_eval training_args then
       ds <- lookup "dev_ds" dev_ds ;; ret (Some ds)
     else ret None) ;;
  let kw := {| tr_model := m;
               tr_args := training_args;
               train_dataset := train_dataset;
               eval_dataset := eval_dataset;
               tr_tokenizer := tok;
               compute_metrics_arg :=
                 if eval_with_do_generation model_args && do_eval training_args
                 then Some compute_metrics_func else None;
               do_generation := eval_with_do_generation model_args;
               data_collator := collate_fn |} in
  call (NewLlamaTrainer kw) kw.

(** Lines 224-229. *)
Definition run_training (training_args : TrainingArguments)
    (last_checkpoint : option string) : M unit :=
  when (do_train training_args)
    (call (TrainerTrain last_checkpoint) tt ;;
     call (TrainerSaveModel (tensor_parallel_degree training_args >? 1)) tt ;;
     call (TrainerLogMetrics "train") tt ;;
     call (TrainerSaveMetrics "train") tt ;;
     call TrainerSaveState tt).

(** Lines 231-233. *)
Definition run_evaluation (training_args : TrainingArguments) : M unit :=
  when (do_eval training_args)
    (call TrainerEvaluate tt ;;
     call (TrainerLogMetrics "test") tt).

(** Lines 74-233. *)
Definition main (w : world) : M unit :=
  '(model_args, data_args, training_args) <- parse_and_configure w ;;
  last_checkpoint <- detect_last_checkpoint w training_args ;;
  let dtype := select_dtype training_args in
  model_class <- select_model_class model_args training_args ;;
  m <- load_pretrained model_class model_args training_args dtype ;;
  m <- apply_lora model_args training_args dtype m ;;
  m <- apply_prefix_tuning model_args dtype m ;;
  tok <- load_tokenizer model_args ;;
  '(train_ds, dev_ds) <-
     build_datasets model_args data_args training_args tok ;;
  trainer <- make_trainer model_args training_args m tok train_ds dev_ds ;;
  run_training training_args last_checkpoint ;;
  run_evaluation training_args.

(* ------------------------------------------------------------------ *)
(** ** [compute_metrics_trainer] (lines 189-204) *)

(** The [eval_preds] object the trainer hands to the metrics closure: one row
    of token ids per example. *)
Record EvalPrediction := {
  predictions : list (list Z);
  label_ids : list (list Z)
}.

(** [x[x != -100]] on a row. *)
Definition drop_ignored (x : list Z) : list Z :=
  filter (fun v => negb (v =? -100)) x.

Section Metrics.

(** What [utils.compute_metrics] returns. *)
Variable Score : Type.

(** [tokenizer.batch_decode(rows, skip_special_tokens=True,
    clean_up_tokenization_spaces=False)]. *)
Variable batch_decode : tokenizer -> list (list Z) -> list PyStr.t.

(** [utils.compute_metrics]. *)
Variable compute_metrics : list PyStr.t -> list PyStr.t -> Score.

Definition compute_metrics_trainer (eval_preds : EvalPrediction)
    (tok : tokenizer) : Score :=
  let all_preds : list PyStr.t := [] in
  let all_labels : list PyStr.t := [] in
  let preds := predictions eval_preds in
  let preds := map drop_ignored preds in
  let all_preds := all_preds ++ batch_decode tok preds in
  let labels := map drop_ignored (label_ids eval_preds) in
  let all_labels := all_labels ++ batch_decode tok labels in
  let all_preds := map (PyStr.strip None) all_preds in
  let all_labels := map (PyStr.strip None) all_labels in
  let all_preds :=
    map (PyStr.strip (Some (PyStr.of_string "question:"))) all_preds in
  let all_labels :=
    map (PyStr.strip (Some (PyStr.of_string "question:"))) all_labels in
  let eval_result := compute_metrics all_preds all_labels in
  eval_result.

End Metrics.

(* ------------------------------------------------------------------ *)
(** ** What a run holds in its variables *)

(** The three dataclasses as [main] holds them from line 83 on. *)
Definition model_args_of (w : world) : ModelArgument := fst (fst (parsed w)).

Definition data_args_of (w : world) : DataArgument :=
  set_always_pad_to_max_length (snd (fst (parsed w))) false.

Definition training_args_of (w : world) : TrainingArguments :=
  set_lr_decay_ratio (snd (parsed w)) (lr_decay_ratio (model_args_of w)).

(** The guard of line 97. *)
Definition looks_for_checkpoint (w : world) : bool :=
  isdir w (output_dir (training_args_of w))
  && do_train (training_args_of w)
  && negb (overwrite_output_dir (training_args_of w)).

(** The condition under which line 100 is reached. *)
Definition output_dir_conflict (w : world) : bool :=
  looks_for_checkpoint w
  && is_none (last_checkpoint_in w (output_dir (training_args_of w)))
  && (Z.of_nat (List.length (listdir w (output_dir (training_args_of w)))) >? 1).

(** The condition under which line 121 is reached, once line 118 is. *)
Definition pipeline_conflict (w : world) : bool :=
  (pipeline_parallel_degree (training_args_of w) >? 1)
  && eval_with_do_generation (model_args_of w)
  && do_eval (training_args_of w).

Definition last_checkpoint_of (w : world) : option string :=
  if looks_for_checkpoint w
  then last_checkpoint_in w (output_dir (training_args_of w))
  else None.

Definition model_class_of (w : world) : model_class :=
  if pipeline_parallel_degree (training_args_of w) >? 1
  then LlamaForCausalLMPipe else AutoModelForCausalLM.

Definition dtype_of (w : world) : string := select_dtype (training_args_of w).

Definition kwargs_of (w : world) : pretrained_kwargs :=
  {| load_state_as_np := true;
     low_cpu_mem_usage := true;
     pk_dtype := dtype_of w;
     pk_tensor_parallel_degree := tensor_parallel_degree (training_args_of w);
     pk_tensor_parallel_rank := tensor_parallel_rank (training_args_of w);
     pk_fp16_opt_level := fp16_opt_level (training_args_of w);
     pk_use_flash_attention := use_flash_attention (model_args_of w);
     use_recompute := recompute (training_args_of w) |}.

(** The object [from_pretrained] returns at line 125. *)
Definition loaded_model (w : world) : model :=
  Pretrained (model_class_of w) (model_name_or_path (model_args_of w))
    (kwargs_of w).

Definition lora_config_of (w : world) : LoRAConfig :=
  {| target_modules := [".*q_proj.*"; ".*v_proj.*"];
     r := 4;
     lora_alpha := 8;
     merge_weights := false;
     lc_tensor_parallel_degree := tensor_parallel_degree (training_args_of w);
     lc_dtype := dtype_of w |}.

Definition prefix_config_for (w : world) (m : model) : PrefixConfig model :=
  {| num_prefix_tokens := 10;
     num_attention_heads := ConfigAttr m "n_head";
     num_hidden_layers := ConfigAttr m "n_layer";
     hidden_size := ConfigAttr m "hidden_size";
     prefix_projection := true;
     prefix_projection_hidden_size := ConfigAttr m "hidden_size";
     pc_dtype := dtype_of w |}.

(** [model] after line 149 and after line 167. *)
Definition model_after_lora (w : world) : model :=
  if lora (model_args_of w)
  then LoRAModel (loaded_model w) (lora_config_of w)
  else loaded_model w.

Definition model_after_prefix (w : world) : model :=
  if prefix_tuning (model_args_of w)
  then PrefixModelForCausalLM (model_after_lora w)
         (prefix_config_for w (model_after_lora w))
         "llama_postprocess_past_key_value"
  else model_after_lora w.

(** [tokenizer] after line 173. *)
Definition tokenizer_of (w : world) : tokenizer :=
  {| tok_name := model_name_or_path (model_args_of w);
     padding_side := "left";
     pad_token := PadIsUnkToken |}.

(** [trans_func] of line 178, and the closure mapped over the dev split. *)
Definition trans_func_of (w : world) : trans_func :=
  {| tf_tokenizer := tokenizer_of w;
     tf_data_args := data_args_of w;
     tf_is_test := None |}.

Definition dev_trans_func_of (w : world) : trans_func :=
  {| tf_tokenizer := tokenizer_of w;
     tf_data_args := data_args_of w;
     tf_is_test := Some (eval_with_do_generation (model_args_of w)) |}.

Definition train_split (w : world) : dataset :=
  Split (task_name (data_args_of w)) "train_v1".

Definition dev_split (w : world) : dataset :=
  Split (task_name (data_args_of w)) "dev_v1".

(** [train_ds] and [dev_ds] after line 185; [None] is an unbound name. *)
Definition train_ds_of (w : world) : option dataset :=
  if do_train (training_args_of w)
  then Some (Mapped (train_split w) (trans_func_of w))
  else if do_eval (training_args_of w) then Some (train_split w) else None.

Definition dev_ds_of (w : world) : option dataset :=
  if do_eval (training_args_of w)
  then Some (Mapped (dev_split w) (dev_trans_func_of w))
  else if do_train (training_args_of w) then Some (dev_split w) else None.

(** The keyword arguments [LlamaTrainer] is built with. *)
Definition trainer_kwargs_of (w : world) : trainer_kwargs :=
  {| tr_model := model_after_prefix w;
     tr_args := training_args_of w;
     train_dataset :=
       if do_train (training_args_of w) then train_ds_of w else None;
     eval_dataset :=
       if do_eval (training_args_of w) then dev_ds_of w else None;
     tr_tokenizer := tokenizer_of w;
     compute_metrics_arg :=
       if eval_with_do_generation (model_args_of w)
          && do_eval (training_args_of w)
       then Some (ComputeMetricsTrainer (tokenizer_of w)) else None;
     do_generation := eval_with_do_generation (model_args_of w);
     data_collator := tokenizer_of w |}.

(** The calls each block makes, spelled out. *)
Definition configure_calls (w : world) : list event :=
  [ ParseArgsIntoDataclasses; PrintConfig "Model"; PrintConfig "Data";
    SetDevice (device (training_args_of w)); SetSeed (training_args_of w);
    LoggerWarning (local_rank (training_args_of w))
      (device (training_args_of w)) (world_size (training_args_of w))
      (negb (local_rank (training_args_of w) =? -1))
      (fp16 (training_args_of w) || bf16 (training_args_of w)) ].

Definition checkpoint_calls (w : world) : list event :=
  let dir := output_dir (training_args_of w) in
  OsPathIsdir dir ::
  (if looks_for_checkpoint w then
     GetLastCheckpoint dir ::
     match last_checkpoint_in w dir with
     | None => [OsListdir dir]
     | Some found =>
         if is_none (resume_from_checkpoint (training_args_of w))
         then [LoggerInfo found] else []
     end
   else []).

Definition lora_calls (w : world) : list event :=
  if lora (model_args_of w)
  then [ NewLoRAModel (loaded_model w) (lora_config_of w);
         MarkOnlyLoraAsTrainable; PrintTrainableParameters ]
  else [].

Definition prefix_calls (w : world) : list event :=
  if prefix_tuning (model_args_of w)
  then [ NewPrefixModel (model_after_lora w)
           (prefix_config_for w (model_after_lora w));
         MarkOnlyPrefixAsTrainable; PrintTrainableParameters ]
  else [].

Definition dataset_calls (w : world) : list event :=
  (if do_train (training_args_of w) || do_eval (training_args_of w)
   then [LoadDataset (task_name (data_args_of w)) ["train_v1"; "dev_v1"]]
   else [])
  ++ (if do_train (training_args_of w)
      then [DatasetMap (train_split w) (trans_func_of w)] else [])
  ++ (if do_eval (training_args_of w)
      then [DatasetMap (dev_split w) (dev_trans_func_of w)] else []).

Definition training_calls (w : world) : list event :=
  if do_train (training_args_of w)
  then [ TrainerTrain (last_checkpoint_of w);
         TrainerSaveModel (tensor_parallel_degree (training_args_of w) >? 1);
         TrainerLogMetrics "train"; TrainerSaveMetrics "train";
         TrainerSaveState ]
  else [].

Definition evaluation_calls (w : world) : list event :=
  if do_eval (training_args_of w)
  then [TrainerEvaluate; TrainerLogMetrics "test"]
  else [].

(** Everything a run that reaches line 125 does from there on. *)
Definition calls_from_model_loading (w : world) : list event :=
  [ModelFromPretrained (model_class_of w)
     (model_name_or_path (model_args_of w)) (kwargs_of w)]
  ++ lora_calls w
  ++ prefix_calls w
  ++ [TokenizerFromPretrained (model_name_or_path (model_args_of w)) "left"]
  ++ dataset_calls w
  ++ [NewDataCollator (tokenizer_of w); NewLlamaTrainer (trainer_kwargs_of w)]
  ++ training_calls w
  ++ evaluation_calls w.

(* ------------------------------------------------------------------ *)
(** ** Tactics and example worlds *)

Unset Implicit Arguments.

(** Case analysis on a hypothesis [H : In e calls], where [calls] is built
    from the call lists above. *)
Ltac find_call H :=
  repeat match type of H with
         | In _ (_ ++ _) => apply in_app_or in H; destruct H as [H | H]
         | In _ (_ :: _) => destruct H as [H | H]
         | In _ [] => destruct H
         | In _ (if ?b then _ else _) => destruct b eqn:?
         | In _ (match ?o with Some _ => _ | None => _ end) =>
             destruct o eqn:?
         | In _ (configure_calls _) => unfold configure_calls in H
         | In _ (checkpoint_calls _) => unfold checkpoint_calls in H
         | In _ (calls_from_model_loading _) =>
             unfold calls_from_model_loading in H
         | In _ (lora_calls _) => unfold lora_calls in H
         | In _ (prefix_calls _) => unfold prefix_calls in H
         | In _ (dataset_calls _) => unfold dataset_calls in H
         | In _ (training_calls _) => unfold training_calls in H
         | In _ (evaluation_calls _) => unfold evaluation_calls in H
         end;
  try discriminate H.

Module Examples.

(** Mixed precision at level O2 with both flags set, training and evaluating
    into a directory that does not exist yet. *)
Definition training_args : TrainingArguments :=
  {| device := "gpu"; local_rank := -1; world_size := 1;
     fp16 := true; bf16 := true; fp16_opt_level := "O2";
     output_dir := "./checkpoints/"; do_train := true; do_eval := true;
     overwrite_output_dir := false; resume_from_checkpoint := None;
     pipeline_parallel_degree := 1; tensor_parallel_degree := 1;
     tensor_parallel_rank := 0; recompute := false;
     ta_lr_decay_ratio := None |}.

Definition fresh : world :=
  {| parsed := (ModelArgument_default, DataArgument_default, training_args);
     isdir := fun _ => false;
     last_checkpoint_in := fun _ => None;
     listdir := fun _ => [] |}.

End Examples.

(* ------------------------------------------------------------------ *)
(** ** Predicates on runs *)

Definition raises_ValueError {A} (m : M A) : Prop :=
  exists msg, result m = Raised (ValueError msg).

(** A call of [from_pretrained] on a model class. *)
Definition loads_model (calls : list event) : Prop :=
  exists cls name kw, In (ModelFromPretrained cls name kw) calls.

(** The five conditions of lines 97-99, on the dataclasses as parsed. *)
Definition output_dir_conditions (w : world) : Prop :=
  let training_args := snd (parsed w) in
  isdir w (output_dir training_args) = true
  /\ do_train training_args = true
  /\ overwrite_output_dir training_args = false
  /\ last_checkpoint_in w (output_dir training_args) = None
  /\ (1 < List.length (listdir w (output_dir training_args)))%nat.

(** The three conditions of lines 119-120. *)
Definition pipeline_conditions (w : world) : Prop :=
  pipeline_parallel_degree (snd (parsed w)) > 1
  /\ eval_with_do_generation (fst (fst (parsed w))) = true
  /\ do_eval (snd (parsed w)) = true.

Module Pipeline.

(** Pipeline parallelism of degree 2, evaluating with generation; the output
    directory does not exist. *)
Definition training_args : TrainingArguments :=
  {| device := "gpu"; local_rank := 0; world_size := 2;
     fp16 := false; bf16 := false; fp16_opt_level := "O1";
     output_dir := "./checkpoints/"; do_train := false; do_eval := true;
     overwrite_output_dir := false; resume_from_checkpoint := None;
     pipeline_parallel_degree := 2; tensor_parallel_degree := 1;
     tensor_parallel_rank := 0; recompute := false;
     ta_lr_decay_ratio := None |}.

Definition evaluating : world :=
  {| parsed := (ModelArgument_default, DataArgument_default, training_args);
     isdir := fun _ => false;
     last_checkpoint_in := fun _ => None;
     listdir := fun _ => [] |}.

End Pipeline.

Module Crowded.

(** Training into an existing directory that holds two entries and no
    checkpoint. *)
Definition world_with (entries : list string) : world :=
  {| parsed := (ModelArgument_default, DataArgument_default,
                Examples.training_args);
     isdir := fun _ => true;
     last_checkpoint_in := fun _ => None;
     listdir := fun _ => entries |}.

Definition two_entries : world := world_with ["runs"; "notes.txt"].

Definition one_entry : world := world_with ["runs"].

End Crowded.

Definition wraps_in_lora (calls : list event) : Prop :=
  exists m lora_config, In (NewLoRAModel m lora_config) calls.

Definition wraps_in_prefix (calls : list event) : Prop :=
  exists m prefix_config, In (NewPrefixModel m prefix_config) calls.

Module Adapters.

(** Both adapters requested at once. *)
Definition model_args : ModelArgument :=
  {| model_name_or_path := "facebook/llama-7b";
     lr_decay_ratio := 0.1%float;
     lora := true;
     use_flash_attention := false;
     eval_with_do_generation := true;
     prefix_tuning := true |}.

Definition both : world :=
  {| parsed := (model_args, DataArgument_default, Examples.training_args);
     isdir := fun _ => false;
     last_checkpoint_in := fun _ => None;
     listdir := fun _ => [] |}.

End Adapters.

(* ------------------------------------------------------------------ *)
(** ** The steps of [main] *)

Inductive step :=
| Configure          (* lines 75-93 *)
| DetectCheckpoint   (* lines 95-108 *)
| LoadModel          (* lines 124-135 *)
| WrapModel          (* lines 137-167 *)
| LoadTokenizer      (* lines 169-173 *)
| BuildDatasets      (* lines 175-185 *)
| ConstructTrainer   (* lines 187-222 *)
| UseTrainer.        (* lines 224-233 *)

Definition position (s : step) : nat :=
  match s with
  | Configure => 0
  | DetectCheckpoint => 1
  | LoadModel => 2
  | WrapModel => 3
  | LoadTokenizer => 4
  | BuildDatasets => 5
  | ConstructTrainer => 6
  | UseTrainer => 7
  end.

(** The step a call belongs to. *)
Definition step_of (e : event) : step :=
  match e with
  | ParseArgsIntoDataclasses | PrintConfig _ | SetDevice _ | SetSeed _
  | LoggerWarning _ _ _ _ _ => Configure
  | OsPathIsdir _ | GetLastCheckpoint _ | OsListdir _ | LoggerInfo _ =>
      DetectCheckpoint
  | ModelFromPretrained _ _ _ => LoadModel
  | NewLoRAModel _ _ | MarkOnlyLoraAsTrainable | NewPrefixModel _ _
  | MarkOnlyPrefixAsTrainable | PrintTrainableParameters => WrapModel
  | TokenizerFromPretrained _ _ => LoadTokenizer
  | LoadDataset _ _ | DatasetMap _ _ => BuildDatasets
  | NewDataCollator _ | NewLlamaTrainer _ => ConstructTrainer
  | TrainerTrain _ | TrainerSaveModel _ | TrainerLogMetrics _
  | TrainerSaveMetrics _ | TrainerSaveState | TrainerEvaluate => UseTrainer
  end.

Definition step_eqb (s s' : step) : bool := Nat.eqb (position s) (position s').

(** The calls of step [s] in a run, in the order they were made. *)
Definition calls_of_step (s : step) (calls : list event) : list event :=
  filter (fun e => step_eqb (step_of e) s) calls.

(** Calls made in a non-decreasing order of steps. *)
Definition in_step_order (calls : list event) : Prop :=
  StronglySorted
    (fun e e' => (position (step_of e) <= position (step_of e'))%nat) calls.

(** All calls of one step. *)
Definition staged (s : step) (calls : list event) : Prop :=
  Forall (fun e => step_of e = s) calls.

(** In step order, and no call from a step before [s]. *)
Definition in_step_order_from (s : step) (calls : list event) : Prop :=
  in_step_order calls
  /\ Forall (fun e => (position s <= position (step_of e))%nat) calls.

Ltac staged_calls :=
  repeat match goal with
         | |- staged _ (if ?b then _ else _) => destruct b
         | |- staged _ (match ?o with Some _ => _ | None => _ end) =>
             destruct o
         | |- staged _ (_ ++ _) => apply Forall_app; split
         | |- staged _ (_ :: _) => constructor; [reflexivity|]
         | |- staged _ [] => constructor
         | |- Forall _ (_ ++ _) => apply Forall_app; split
         | |- Forall _ (_ :: _) => constructor; [reflexivity|]
         | |- Forall _ [] => constructor
         | |- Forall _ (if ?b then _ else _) => destruct b
         | |- Forall _ (match ?o with Some _ => _ | None => _ end) =>
             destruct o
         end.

Module EvalOnly.

(** Evaluation without training. *)
Definition training_args : TrainingArguments :=
  {| device := "gpu"; local_rank := -1; world_size := 1;
     fp16 := false; bf16 := false; fp16_opt_level := "O1";
     output_dir := "./checkpoints/"; do_train := false; do_eval := true;
     overwrite_output_dir := false; resume_from_checkpoint := None;
     pipeline_parallel_degree := 1; tensor_parallel_degree := 1;
     tensor_parallel_rank := 0; recompute := false;
     ta_lr_decay_ratio := None |}.

Definition run : world :=
  {| parsed := (ModelArgument_default, DataArgument_default, training_args);
     isdir := fun _ => true;
     last_checkpoint_in := fun _ => None;
     listdir := fun _ => ["runs"; "notes.txt"] |}.

End EvalOnly.

(* ------------------------------------------------------------------ *)
(** ** Trimming decoded strings *)

(** The code points of ["question:"], the argument of the second [strip]. *)
Definition question_chars : PyStr.t := PyStr.of_string "question:".

(** Lines 198-201 on one decoded string. *)
Definition clean (s : PyStr.t) : PyStr.t :=
  PyStr.strip (Some question_chars) (PyStr.strip None s).

(** A code point either [strip] may drop. *)
Definition trimmable (c : N) : Prop :=
  PyStr.is_whitespace c = true \/ PyStr.mem question_chars c = true.

Module Scoring.

(** A tokenizer whose token ids are code points. *)
Definition decode (_ : tokenizer) (rows : list (list Z)) : list PyStr.t :=
  map (map Z.to_N) rows.

Definition same (s s' : PyStr.t) : bool :=
  Nat.eqb (List.length s) (List.length s')
  && forallb (fun cc => N.eqb (fst cc) (snd cc)) (combine s s').

(** The number of predictions equal to their label. *)
Fixpoint exact_matches (preds labels : list PyStr.t) : nat :=
  match preds, labels with
  | p :: preds', l :: labels' =>
      ((if same p l then 1 else 0) + exact_matches preds' labels')%nat
  | _, _ => 0%nat
  end.

(** One example: the prediction decodes to "sun", the label to "sunset". *)
Definition eval_preds : EvalPrediction :=
  {| predictions := [[115; 117; 110]];
     label_ids := [[115; 117; 110; 115; 101; 116]] |}.

End Scoring.

(* ------------------------------------------------------------------ *)
(** ** More example worlds *)

Module Resuming.

(** Training into a directory in which [get_last_checkpoint] finds a
    checkpoint. *)
Definition run : world :=
  {| parsed := (ModelArgument_default, DataArgument_default,
                Examples.training_args);
     isdir := fun _ => true;
     last_checkpoint_in := fun _ => Some "./checkpoints/checkpoint-500";
     listdir := fun _ => ["checkpoint-500"; "runs"; "notes.txt"] |}.

(** The same command line where the directory is absent; the file system
    differs behind the absent directory. *)
Definition absent : world :=
  {| parsed := (ModelArgument_default, DataArgument_default,
                Examples.training_args);
     isdir := fun _ => false;
     last_checkpoint_in := fun _ => Some "./checkpoints/checkpoint-500";
     listdir := fun _ => ["checkpoint-500"; "runs"; "notes.txt"] |}.

End Resuming.

Module Overwriting.

(** Training with [--overwrite_output_dir] and an explicit
    [--resume_from_checkpoint], into a crowded directory that holds a
    checkpoint. *)
Definition training_args : TrainingArguments :=
  {| device := "gpu"; local_rank := -1; world_size := 1;
     fp16 := false; bf16 := false; fp16_opt_level := "O1";
     output_dir := "./checkpoints/"; do_train := true; do_eval := false;
     overwrite_output_dir := true;
     resume_from_checkpoint := Some "./checkpoints/checkpoint-500";
     pipeline_parallel_degree := 1; tensor_parallel_degree := 2;
     tensor_parallel_rank := 0; recompute := false;
     ta_lr_decay_ratio := None |}.

Definition run : world :=
  {| parsed := (Adapters.model_args, DataArgument_default, training_args);
     isdir := fun _ => true;
     last_checkpoint_in := fun _ => Some "./checkpoints/checkpoint-500";
     listdir := fun _ => ["checkpoint-500"; "runs"; "notes.txt"] |}.

End Overwriting.

Module Idle.

(** Neither [--do_train] nor [--do_eval], with pipeline parallelism, into a
    crowded directory without a checkpoint. *)
Definition training_args : TrainingArguments :=
  {| device := "gpu"; local_rank := 0; world_size := 2;
     fp16 := false; bf16 := false; fp16_opt_level := "O1";
     output_dir := "./checkpoints/"; do_train := false; do_eval := false;
     overwrite_output_dir := false; resume_from_checkpoint := None;
     pipeline_parallel_degree := 2; tensor_parallel_degree := 1;
     tensor_parallel_rank := 0; recompute := false;
     ta_lr_decay_ratio := None |}.

Definition run : world :=
  {| parsed := (ModelArgument_default, DataArgument_default, training_args);
     isdir := fun _ => true;
     last_checkpoint_in := fun _ => None;
     listdir := fun _ => ["runs"; "notes.txt"] |}.

End Idle.

Module Spaced.

(** One example: the prediction decodes to " Par", the label to "Par"
    followed by a newline. *)
Definition eval_preds : EvalPrediction :=
  {| predictions := [[32; 80; 97; 114]];
     label_ids := [[80; 97; 114; 10]] |}.

(** A batch of two predictions, "no" and "Par", and their labels. *)
Definition mixed : EvalPrediction :=
  {| predictions := [[110; 111]; [80; 97; 114]];
     label_ids := [[110; 111]; [80; 97; 114]] |}.

End Spaced.

(* ------------------------------------------------------------------ *)
(** ** Running the blocks *)

Lemma parse_and_configure_run (w : world) :
  parse_and_configure w
  = (configure_calls w,
     Returned (model_args_of w, data_args_of w, training_args_of w)).
Proof.
  unfold parse_and_configure, configure_calls, model_args_of, data_args_of,
    training_args_of, model_args_of.
  destruct (parsed w) as [[model_args data_args] training_args].
  reflexivity.
Qed.

Lemma detect_last_checkpoint_run (w : world) :
  detect_last_checkpoint w (training_args_of w)
  = (checkpoint_calls w,
     if output_dir_conflict w
     then Raised (ValueError
                    (output_dir_message (output_dir (training_args_of w))))
     else Returned (last_checkpoint_of w)).
Proof.
  unfold detect_last_checkpoint, checkpoint_calls, output_dir_conflict,
    last_checkpoint_of, looks_for_checkpoint.
  cbn [bind call fst snd app].
  destruct (isdir w _); cbn; [|reflexivity].
  destruct (do_train _); cbn; [|reflexivity].
  destruct (overwrite_output_dir _); cbn; [reflexivity|].
  destruct (last_checkpoint_in w _) as [found|]; cbn.
  - destruct (resume_from_checkpoint _); reflexivity.
  - destruct (Z.of_nat _ >? 1); reflexivity.
Qed.

Lemma select_model_class_run (w : world) :
  select_model_class (model_args_of w) (training_args_of w)
  = ([], if pipeline_conflict w
         then Raised (ValueError pipeline_message)
         else Returned (model_class_of w)).
Proof.
  unfold select_model_class, pipeline_conflict, model_class_of.
  destruct (_ >? 1); cbn; [|reflexivity].
  destruct (eval_with_do_generation _ && do_eval _); reflexivity.
Qed.

Lemma load_pretrained_run (w : world) :
  load_pretrained (model_class_of w) (model_args_of w) (training_args_of w)
    (dtype_of w)
  = ([ModelFromPretrained (model_class_of w)
        (model_name_or_path (model_args_of w)) (kwargs_of w)],
     Returned (loaded_model w)).
Proof. reflexivity. Qed.

Lemma apply_lora_run (w : world) :
  apply_lora (model_args_of w) (training_args_of w) (dtype_of w)
    (loaded_model w)
  = (lora_calls w, Returned (model_after_lora w)).
Proof.
  unfold apply_lora, lora_calls, model_after_lora.
  destruct (lora _); reflexivity.
Qed.

Lemma apply_prefix_tuning_run (w : world) :
  apply_prefix_tuning (model_args_of w) (dtype_of w) (model_after_lora w)
  = (prefix_calls w, Returned (model_after_prefix w)).
Proof.
  unfold apply_prefix_tuning, prefix_calls, model_after_prefix.
  destruct (prefix_tuning _); reflexivity.
Qed.

Lemma load_tokenizer_run (w : world) :
  load_tokenizer (model_args_of w)
  = ([TokenizerFromPretrained (model_name_or_path (model_args_of w)) "left"],
     Returned (tokenizer_of w)).
Proof. reflexivity. Qed.

Lemma build_datasets_run (w : world) :
  build_datasets (model_args_of w) (data_args_of w) (training_args_of w)
    (tokenizer_of w)
  = (dataset_calls w, Returned (train_ds_of w, dev_ds_of w)).
Proof.
  unfold build_datasets, dataset_calls, train_ds_of, dev_ds_of.
  destruct (do_train _), (do_eval _); reflexivity.
Qed.

Lemma make_trainer_run (w : world) :
  make_trainer (model_args_of w) (training_args_of w) (model_after_prefix w)
    (tokenizer_of w) (train_ds_of w) (dev_ds_of w)
  = ([NewDataCollator (tokenizer_of w); NewLlamaTrainer (trainer_kwargs_of w)],
     Returned (trainer_kwargs_of w)).
Proof.
  unfold make_trainer, trainer_kwargs_of, train_ds_of, dev_ds_of.
  destruct (do_train _), (do_eval _); reflexivity.
Qed.

Lemma run_training_run (w : world) :
  run_training (training_args_of w) (last_checkpoint_of w)
  = (training_calls w, Returned tt).
Proof.
  unfold run_training, training_calls.
  destruct (do_train _); reflexivity.
Qed.

Lemma run_evaluation_run (w : world) :
  run_evaluation (training_args_of w) = (evaluation_calls w, Returned tt).
Proof.
  unfold run_evaluation, evaluation_calls.
  destruct (do_eval _); reflexivity.
Qed.

(** The three ways a run of [main] can go. *)
Lemma main_output_dir_conflict (w : world) :
  output_dir_conflict w = true ->
  main w
  = (configure_calls w ++ checkpoint_calls w,
     Raised (ValueError
               (output_dir_message (output_dir (training_args_of w))))).
Proof.
  intros Hdir. unfold main.
  rewrite parse_and_configure_run. cbn [bind].
  rewrite detect_last_checkpoint_run, Hdir.
  reflexivity.
Qed.

Lemma main_pipeline_conflict (w : world) :
  output_dir_conflict w = false ->
  pipeline_conflict w = true ->
  main w
  = (configure_calls w ++ checkpoint_calls w,
     Raised (ValueError pipeline_message)).
Proof.
  intros Hdir Hpipe. unfold main.
  rewrite parse_and_configure_run. cbn [bind].
  rewrite detect_last_checkpoint_run, Hdir. cbn [bind].
  rewrite select_model_class_run, Hpipe. cbn [bind].
  rewrite app_nil_r. reflexivity.
Qed.

Lemma main_completes (w : world) :
  output_dir_conflict w = false ->
  pipeline_conflict w = false ->
  main w
  = (configure_calls w ++ checkpoint_calls w ++ calls_from_model_loading w,
     Returned tt).
Proof.
  intros Hdir Hpipe. unfold main, calls_from_model_loading.
  rewrite parse_and_configure_run. cbn [bind].
  rewrite detect_last_checkpoint_run, Hdir. cbn [bind].
  rewrite select_model_class_run, Hpipe. cbn [bind].
  fold (dtype_of w).
  rewrite load_pretrained_run. cbn [bind].
  rewrite apply_lora_run. cbn [bind].
  rewrite apply_prefix_tuning_run. cbn [bind].
  rewrite load_tokenizer_run. cbn [bind].
  rewrite build_datasets_run. cbn [bind].
  rewrite make_trainer_run. cbn [bind].
  rewrite run_training_run. cbn [bind].
  rewrite run_evaluation_run.
  cbn [app]. reflexivity.
Qed.

(* ------------------------------------------------------------------ *)
(** ** Looking for a call in a run *)

(** The calls of any run are the configuration and checkpoint calls, followed,
    in a run that raises nothing, by the calls from line 125 on. *)
Lemma trace_main (w : world) :
  trace (main w)
  = configure_calls w ++ checkpoint_calls w
    ++ (if output_dir_conflict w || pipeline_conflict w then []
        else calls_from_model_loading w).
Proof.
  destruct (output_dir_conflict w) eqn:Hdir.
  - rewrite (main_output_dir_conflict _ Hdir), app_nil_r. reflexivity.
  - destruct (pipeline_conflict w) eqn:Hpipe.
    + rewrite (main_pipeline_conflict _ Hdir Hpipe), app_nil_r. reflexivity.
    + rewrite (main_completes _ Hdir Hpipe). reflexivity.
Qed.

Lemma result_main (w : world) :
  result (main w)
  = if output_dir_conflict w
    then Raised (ValueError
                   (output_dir_message (output_dir (training_args_of w))))
    else if pipeline_conflict w
         then Raised (ValueError pipeline_message)
         else Returned tt.
Proof.
  destruct (output_dir_conflict w) eqn:Hdir.
  - rewrite (main_output_dir_conflict _ Hdir). reflexivity.
  - destruct (pipeline_conflict w) eqn:Hpipe.
    + rewrite (main_pipeline_conflict _ Hdir Hpipe). reflexivity.
    + rewrite (main_completes _ Hdir Hpipe). reflexivity.
Qed.

Lemma returns_main (w : world) :
  returns (main w) = negb (output_dir_conflict w || pipeline_conflict w).
Proof.
  unfold returns. rewrite result_main.
  destruct (output_dir_conflict w), (pipeline_conflict w); reflexivity.
Qed.

(* ------------------------------------------------------------------ *)
(** ** The dtype the model is loaded with *)

Lemma select_dtype_closed_form (training_args : TrainingArguments) :
  select_dtype training_args
  = if String.eqb (fp16_opt_level training_args) "O2" && bf16 training_args
    then "bfloat16"
    else if String.eqb (fp16_opt_level training_args) "O2"
            && fp16 training_args
         then "float16" else "float32".
Proof.
  unfold select_dtype.
  destruct (String.eqb _ "O2"), (fp16 _), (bf16 _); reflexivity.
Qed.

(** C9.  Whenever [main] calls [from_pretrained] on the model class, the
    [dtype] keyword it passes is ["bfloat16"] if [fp16_opt_level] is ["O2"]
    and [bf16] is set (whether or not [fp16] is set too), ["float16"] if
    [fp16_opt_level] is ["O2"], [fp16] is set and [bf16] is not, and
    ["float32"] in every other case; so with a level other than ["O2"] it is
    ["float32"] whatever the two flags are. *)
Theorem dtype_passed_to_from_pretrained
    (w : world) (cls : model_class) (name : string) (kw : pretrained_kwargs) :
  In (ModelFromPretrained cls name kw) (trace (main w)) ->
  let training_args := snd (parsed w) in
  (fp16_opt_level training_args = "O2" -> bf16 training_args = true ->
   pk_dtype kw = "bfloat16")
  /\ (fp16_opt_level training_args = "O2" -> fp16 training_args = true ->
      bf16 training_args = false -> pk_dtype kw = "float16")
  /\ (~ (fp16_opt_level training_args = "O2"
         /\ (fp16 training_args = true \/ bf16 training_args = true)) ->
      pk_dtype kw = "float32")
  /\ (fp16_opt_level training_args <> "O2" -> pk_dtype kw = "float32").
Proof.
  intros Hcall training_args.
  assert (Hdtype : pk_dtype kw = select_dtype training_args).
  { rewrite trace_main in Hcall. find_call Hcall.
    inversion Hcall; subst. reflexivity. }
  rewrite Hdtype, select_dtype_closed_form.
  destruct (String.eqb_spec (fp16_opt_level training_args) "O2") as [Hlvl | Hlvl];
    destruct (fp16 training_args), (bf16 training_args); cbn;
    repeat split; intros; try reflexivity; try congruence; try tauto;
    exfalso; tauto.
Qed.

Lemma dtype_passed_to_from_pretrained_witness :
  In (ModelFromPretrained AutoModelForCausalLM "facebook/llama-7b"
        (kwargs_of Examples.fresh))
     (trace (main Examples.fresh))
  /\ pk_dtype (kwargs_of Examples.fresh) = "bfloat16".
Proof.
  assert (Hcall : In (ModelFromPretrained AutoModelForCausalLM
                        "facebook/llama-7b" (kwargs_of Examples.fresh))
                     (trace (main Examples.fresh))).
  { cbn. do 7 right. left. reflexivity. }
  split; [exact Hcall|].
  apply (proj1 (dtype_passed_to_from_pretrained _ _ _ _ Hcall));
    reflexivity.
Defined.

(* ------------------------------------------------------------------ *)
(** ** When [main] raises *)

Lemma is_none_true {A} (v : option A) : is_none v = true <-> v = None.
Proof. destruct v; cbn; split; congruence. Qed.

Lemma output_dir_conflict_iff (w : world) :
  output_dir_conflict w = true <-> output_dir_conditions w.
Proof.
  unfold output_dir_conflict, looks_for_checkpoint, output_dir_conditions.
  cbn [training_args_of set_lr_decay_ratio output_dir do_train
       overwrite_output_dir].
  rewrite !andb_true_iff, negb_true_iff, is_none_true.
  rewrite Z.gtb_ltb, Z.ltb_lt.
  split; intros H; repeat split; try tauto; lia.
Qed.

Lemma pipeline_conflict_iff (w : world) :
  pipeline_conflict w = true <-> pipeline_conditions w.
Proof.
  unfold pipeline_conflict, pipeline_conditions, model_args_of.
  cbn [training_args_of set_lr_decay_ratio pipeline_parallel_degree do_eval].
  rewrite !andb_true_iff, Z.gtb_ltb, Z.ltb_lt.
  split; intros H; repeat split; try tauto; lia.
Qed.

Lemma output_dir_message_not_pipeline (dir : string) :
  output_dir_message dir <> pipeline_message.
Proof. discriminate. Qed.

(** No run that raises has loaded a model: both [raise] statements sit above
    line 125. *)
Lemma raised_before_loading (w : world) :
  returns (main w) = false -> ~ loads_model (trace (main w)).
Proof.
  rewrite returns_main, negb_false_iff. intros Hconflict.
  rewrite trace_main, Hconflict.
  intros (cls & name & kw & Hcall). find_call Hcall.
Qed.

Lemma raises_ValueError_iff (w : world) :
  raises_ValueError (main w)
  <-> output_dir_conditions w \/ pipeline_conditions w.
Proof.
  rewrite <- output_dir_conflict_iff, <- pipeline_conflict_iff.
  unfold raises_ValueError. rewrite result_main.
  destruct (output_dir_conflict w), (pipeline_conflict w);
    split; intros H; eauto; try (destruct H as [? H]; discriminate H);
    destruct H; discriminate.
Qed.

(** C7, as stated, fails: with pipeline parallelism of degree 2 and
    evaluation with generation, [main] raises a [ValueError] before loading
    any model although the output directory does not even exist. *)
Lemma value_error_without_output_dir_conditions :
  (raises_ValueError (main Pipeline.evaluating)
   /\ ~ loads_model (trace (main Pipeline.evaluating)))
  /\ ~ output_dir_conditions Pipeline.evaluating.
Proof.
  split; [split|].
  - exists pipeline_message. reflexivity.
  - apply raised_before_loading. reflexivity.
  - intros (Hdir & _). discriminate Hdir.
Qed.

(** C7, amended.  [main] raises the [ValueError] of line 100, the one that
    says the output directory already exists and is not empty, if and only if
    [output_dir] is a directory, [do_train] is set, [overwrite_output_dir] is
    not, [get_last_checkpoint] finds nothing there and the directory holds
    strictly more than one entry; it then has not loaded any model.  A
    directory holding exactly one entry and no checkpoint does not raise it.
    Any [ValueError] of [main] is this one or the pipeline one of line 121. *)
Theorem output_dir_error_iff (w : world) :
  let dir := output_dir (snd (parsed w)) in
  (result (main w) = Raised (ValueError (output_dir_message dir))
   <-> output_dir_conditions w)
  /\ (output_dir_conditions w -> ~ loads_model (trace (main w)))
  /\ (List.length (listdir w dir) = 1%nat ->
      result (main w) <> Raised (ValueError (output_dir_message dir)))
  /\ (raises_ValueError (main w)
      <-> output_dir_conditions w \/ pipeline_conditions w).
Proof.
  intros dir.
  assert (Hiff : result (main w) = Raised (ValueError (output_dir_message dir))
                 <-> output_dir_conditions w).
  { rewrite <- output_dir_conflict_iff, result_main.
    destruct (output_dir_conflict w); [tauto|].
    split; [|discriminate].
    destruct (pipeline_conflict w); intros H; [|discriminate H].
    exfalso. apply (@output_dir_message_not_pipeline dir). congruence. }
  split; [exact Hiff|]. split; [|split].
  - intros Hcond. apply raised_before_loading.
    apply output_dir_conflict_iff in Hcond.
    rewrite returns_main, Hcond. reflexivity.
  - intros Hone Hraise. apply Hiff in Hraise.
    destruct Hraise as (_ & _ & _ & _ & Hmany).
    fold dir in Hmany. lia.
  - apply raises_ValueError_iff.
Qed.

Lemma output_dir_error_iff_witness :
  output_dir_conditions Crowded.two_entries
  /\ result (main Crowded.two_entries)
     = Raised (ValueError (output_dir_message "./checkpoints/"))
  /\ ~ loads_model (trace (main Crowded.two_entries))
  /\ result (main Crowded.one_entry)
     <> Raised (ValueError (output_dir_message "./checkpoints/")).
Proof.
  assert (Hcond : output_dir_conditions Crowded.two_entries).
  { repeat split; cbn; lia. }
  split; [exact Hcond|].
  split; [|split].
  - apply (proj1 (output_dir_error_iff Crowded.two_entries)), Hcond.
  - apply (proj1 (proj2 (output_dir_error_iff Crowded.two_entries))), Hcond.
  - apply (proj1 (proj2 (proj2 (output_dir_error_iff Crowded.one_entry)))).
    reflexivity.
Defined.

(* ------------------------------------------------------------------ *)
(** ** The class the model is loaded from *)

(** C8.  With [pipeline_parallel_degree > 1], [eval_with_do_generation] and
    [do_eval] all set, [main] raises a [ValueError] and has loaded no model.
    In every run the class [from_pretrained] is called on is
    [LlamaForCausalLMPipe] when [pipeline_parallel_degree > 1] and
    [AutoModelForCausalLM] when it is at most 1, and outside the first case
    a run that passes the output-directory check does make that call. *)
Theorem model_class_for_from_pretrained (w : world) :
  let model_args := fst (fst (parsed w)) in
  let training_args := snd (parsed w) in
  (pipeline_parallel_degree training_args > 1 ->
   eval_with_do_generation model_args = true ->
   do_eval training_args = true ->
   raises_ValueError (main w) /\ ~ loads_model (trace (main w)))
  /\ (forall cls name kw,
        In (ModelFromPretrained cls name kw) (trace (main w)) ->
        (pipeline_parallel_degree training_args > 1 ->
         cls = LlamaForCausalLMPipe)
        /\ (pipeline_parallel_degree training_args <= 1 ->
            cls = AutoModelForCausalLM))
  /\ (~ pipeline_conditions w -> ~ output_dir_conditions w ->
      result (main w) = Returned tt
      /\ exists cls kw,
           In (ModelFromPretrained cls (model_name_or_path model_args) kw)
              (trace (main w))).
Proof.
  intros model_args training_args.
  assert (Hclass : forall cls name kw,
             In (ModelFromPretrained cls name kw) (trace (main w)) ->
             cls = model_class_of w).
  { intros cls name kw Hcall. rewrite trace_main in Hcall. find_call Hcall.
    inversion Hcall; subst. reflexivity. }
  split; [|split].
  - intros Hdeg Hgen Heval.
    assert (Hpipe : pipeline_conflict w = true)
      by (apply pipeline_conflict_iff; repeat split; assumption).
    split.
    + apply raises_ValueError_iff. right.
      apply pipeline_conflict_iff, Hpipe.
    + apply raised_before_loading.
      rewrite returns_main, Hpipe, orb_true_r. reflexivity.
  - intros cls name kw Hcall. rewrite (Hclass _ _ _ Hcall).
    unfold model_class_of.
    cbn [training_args_of set_lr_decay_ratio pipeline_parallel_degree].
    fold training_args.
    destruct (Z.gtb_spec (pipeline_parallel_degree training_args) 1);
      split; intros; first [reflexivity | lia].
  - intros Hpipe Hdir.
    rewrite <- pipeline_conflict_iff in Hpipe.
    rewrite <- output_dir_conflict_iff in Hdir.
    apply not_true_is_false in Hpipe, Hdir.
    rewrite (main_completes _ Hdir Hpipe).
    split; [reflexivity|].
    exists (model_class_of w), (kwargs_of w).
    apply in_or_app; right. apply in_or_app; right.
    left. reflexivity.
Qed.

Lemma model_class_for_from_pretrained_witness :
  raises_ValueError (main Pipeline.evaluating)
  /\ ~ loads_model (trace (main Pipeline.evaluating))
  /\ exists cls kw,
       In (ModelFromPretrained cls "facebook/llama-7b" kw)
          (trace (main Examples.fresh)).
Proof.
  split; [|split].
  - apply (proj1 (model_class_for_from_pretrained Pipeline.evaluating));
      cbn; [lia | reflexivity | reflexivity].
  - apply (proj1 (model_class_for_from_pretrained Pipeline.evaluating));
      cbn; [lia | reflexivity | reflexivity].
  - apply (proj2 (proj2 (model_class_for_from_pretrained Examples.fresh))).
    + intros (Hdeg & _). cbn in Hdeg. lia.
    + intros (Hdir & _). discriminate Hdir.
Defined.

(* ------------------------------------------------------------------ *)
(** ** Adapters *)

(** The trainer is built exactly once in a run that raises nothing, from
    [trainer_kwargs_of]. *)
Lemma trainer_constructed (w : world) (kw : trainer_kwargs) :
  result (main w) = Returned tt ->
  In (NewLlamaTrainer kw) (trace (main w)) <-> kw = trainer_kwargs_of w.
Proof.
  intros Hret. rewrite trace_main. rewrite result_main in Hret.
  destruct (output_dir_conflict w); [discriminate|].
  destruct (pipeline_conflict w); [discriminate|]. cbn [orb].
  split.
  - intros Hcall. find_call Hcall. congruence.
  - intros ->. apply in_or_app; right. apply in_or_app; right.
    unfold calls_from_model_loading.
    do 5 (apply in_or_app; right). right. left. reflexivity.
Qed.

Lemma completed_trace (w : world) :
  result (main w) = Returned tt ->
  trace (main w)
  = configure_calls w ++ checkpoint_calls w ++ calls_from_model_loading w.
Proof.
  intros Hret. rewrite trace_main. rewrite result_main in Hret.
  destruct (output_dir_conflict w); [discriminate|].
  destruct (pipeline_conflict w); [discriminate|]. reflexivity.
Qed.

(** C1.  In a run of [main] that raises nothing: [LoRAModel] is built exactly
    when [model_args.lora] is set, around the model [from_pretrained]
    returned; [PrefixModelForCausalLM] is built exactly when
    [model_args.prefix_tuning] is set, around the model as it then stands,
    LoRA-wrapped if [lora] is set too; the trainer receives the result, which
    with neither flag is the model [from_pretrained] returned. *)
Theorem adapters_follow_flags (w : world) :
  result (main w) = Returned tt ->
  let model_args := fst (fst (parsed w)) in
  let calls := trace (main w) in
  let base := loaded_model w in
  let with_lora :=
    if lora model_args then LoRAModel base (lora_config_of w) else base in
  let final :=
    if prefix_tuning model_args
    then PrefixModelForCausalLM with_lora (prefix_config_for w with_lora)
           "llama_postprocess_past_key_value"
    else with_lora in
  (exists cls name kw,
      In (ModelFromPretrained cls name kw) calls
      /\ base = Pretrained cls name kw)
  /\ (wraps_in_lora calls <-> lora model_args = true)
  /\ (forall m c, In (NewLoRAModel m c) calls -> m = base)
  /\ (wraps_in_prefix calls <-> prefix_tuning model_args = true)
  /\ (forall m c, In (NewPrefixModel m c) calls -> m = with_lora)
  /\ (exists kw, In (NewLlamaTrainer kw) calls)
  /\ (forall kw, In (NewLlamaTrainer kw) calls -> tr_model kw = final)
  /\ (lora model_args = false -> prefix_tuning model_args = false ->
      final = base).
Proof.
  intros Hret model_args calls base with_lora final.
  subst model_args. unfold model_args_of in *.
  assert (Hcalls : calls = configure_calls w ++ checkpoint_calls w
                           ++ calls_from_model_loading w)
    by (apply completed_trace, Hret).
  assert (Hfrom : forall e, In e (calls_from_model_loading w) -> In e calls).
  { intros e He. rewrite Hcalls. apply in_or_app; right.
    apply in_or_app; right. exact He. }
  split; [|split; [|split; [|split; [|split; [|split; [|split]]]]]].
  - exists (model_class_of w), (model_name_or_path (model_args_of w)),
      (kwargs_of w).
    split; [|reflexivity]. apply Hfrom. left. reflexivity.
  - split.
    + intros (m & c & Hcall). rewrite Hcalls in Hcall. find_call Hcall.
      assumption.
    + intros Hlora. exists base, (lora_config_of w). apply Hfrom.
      apply in_or_app; right. apply in_or_app; left.
      unfold lora_calls, model_args_of.
      rewrite Hlora. left. reflexivity.
  - intros m c Hcall. rewrite Hcalls in Hcall. find_call Hcall.
    inversion Hcall; reflexivity.
  - split.
    + intros (m & c & Hcall). rewrite Hcalls in Hcall. find_call Hcall.
      assumption.
    + intros Hprefix. exists with_lora, (prefix_config_for w with_lora).
      apply Hfrom.
      do 2 (apply in_or_app; right). apply in_or_app; left.
      unfold prefix_calls, model_args_of. rewrite Hprefix.
      left. reflexivity.
  - intros m c Hcall. rewrite Hcalls in Hcall. find_call Hcall.
    inversion Hcall; reflexivity.
  - exists (trainer_kwargs_of w). apply trainer_constructed; auto.
  - intros kw Hcall. apply trainer_constructed in Hcall; [|exact Hret].
    subst kw. reflexivity.
  - intros Hlora Hprefix. subst final with_lora.
    rewrite Hlora, Hprefix. reflexivity.
Qed.

Lemma adapters_follow_flags_witness :
  result (main Adapters.both) = Returned tt
  /\ wraps_in_lora (trace (main Adapters.both))
  /\ wraps_in_prefix (trace (main Adapters.both))
  /\ forall kw,
       In (NewLlamaTrainer kw) (trace (main Adapters.both)) ->
       tr_model kw
       = PrefixModelForCausalLM
           (LoRAModel (loaded_model Adapters.both)
              (lora_config_of Adapters.both))
           (prefix_config_for Adapters.both
              (LoRAModel (loaded_model Adapters.both)
                 (lora_config_of Adapters.both)))
           "llama_postprocess_past_key_value".
Proof.
  assert (Hret : result (main Adapters.both) = Returned tt) by reflexivity.
  pose proof (adapters_follow_flags Adapters.both Hret) as Hflags.
  cbv zeta in Hflags.
  destruct Hflags as (_ & Hlora & _ & Hprefix & _ & _ & Hfinal & _).
  split; [exact Hret|]. split; [|split].
  - apply Hlora. reflexivity.
  - apply Hprefix. reflexivity.
  - exact Hfinal.
Defined.

(* ------------------------------------------------------------------ *)
(** ** The steps of [main] and their order *)

Lemma in_step_order_from_nil (s : step) : in_step_order_from s [].
Proof. split; constructor. Qed.

Lemma in_step_order_from_staged (s s' : step) (calls rest : list event) :
  (position s <= position s')%nat ->
  staged s calls ->
  in_step_order_from s' rest ->
  in_step_order_from s (calls ++ rest).
Proof.
  intros Hle Hstaged [Hsorted Hfrom].
  assert (Hrest : Forall (fun e => (position s <= position (step_of e))%nat)
                         rest).
  { eapply Forall_impl; [|exact Hfrom]. cbn. intros e He. lia. }
  induction Hstaged as [|e calls He _ IH]; cbn [app].
  - split; assumption.
  - destruct IH as [IHsorted IHfrom]. split.
    + constructor; [exact IHsorted|]. rewrite He. exact IHfrom.
    + constructor; [rewrite He; lia | exact IHfrom].
Qed.

(** In an ordered run, a call of an earlier step than [e] was made before
    [e]. *)
Lemma earlier_step_earlier_call (before after : list event) (e x : event) :
  in_step_order (before ++ e :: after) ->
  In x (before ++ e :: after) ->
  (position (step_of x) < position (step_of e))%nat ->
  In x before.
Proof.
  induction before as [|b before IH]; cbn [app]; intros Hsorted Hin Hlt.
  - apply StronglySorted_inv in Hsorted as [_ Hall].
    destruct Hin as [-> | Hin]; [lia|].
    rewrite Forall_forall in Hall. apply Hall in Hin. lia.
  - apply StronglySorted_inv in Hsorted as [Hsorted _].
    destruct Hin as [-> | Hin]; [left; reflexivity|].
    right. apply IH; assumption.
Qed.

Lemma configure_calls_staged (w : world) :
  staged Configure (configure_calls w).
Proof. unfold configure_calls. staged_calls. Qed.

Lemma checkpoint_calls_staged (w : world) :
  staged DetectCheckpoint (checkpoint_calls w).
Proof. unfold checkpoint_calls. cbv zeta. staged_calls. Qed.

Lemma lora_calls_staged (w : world) : staged WrapModel (lora_calls w).
Proof. unfold lora_calls. staged_calls. Qed.

Lemma prefix_calls_staged (w : world) : staged WrapModel (prefix_calls w).
Proof. unfold prefix_calls. staged_calls. Qed.

Lemma dataset_calls_staged (w : world) :
  staged BuildDatasets (dataset_calls w).
Proof. unfold dataset_calls. staged_calls. Qed.

Lemma training_calls_staged (w : world) :
  staged UseTrainer (training_calls w).
Proof. unfold training_calls. staged_calls. Qed.

Lemma evaluation_calls_staged (w : world) :
  staged UseTrainer (evaluation_calls w).
Proof. unfold evaluation_calls. staged_calls. Qed.

Lemma calls_from_model_loading_ordered (w : world) :
  in_step_order_from LoadModel (calls_from_model_loading w).
Proof.
  unfold calls_from_model_loading.
  apply in_step_order_from_staged with (s' := WrapModel);
    [cbn; lia | staged_calls |].
  apply in_step_order_from_staged with (s' := WrapModel);
    [cbn; lia | apply lora_calls_staged |].
  apply in_step_order_from_staged with (s' := LoadTokenizer);
    [cbn; lia | apply prefix_calls_staged |].
  apply in_step_order_from_staged with (s' := BuildDatasets);
    [cbn; lia | staged_calls |].
  apply in_step_order_from_staged with (s' := ConstructTrainer);
    [cbn; lia | apply dataset_calls_staged |].
  apply in_step_order_from_staged with (s' := UseTrainer);
    [cbn; lia | staged_calls |].
  apply in_step_order_from_staged with (s' := UseTrainer);
    [cbn; lia | apply training_calls_staged |].
  rewrite <- (app_nil_r (evaluation_calls w)).
  apply in_step_order_from_staged with (s' := UseTrainer);
    [cbn; lia | apply evaluation_calls_staged |].
  apply in_step_order_from_nil.
Qed.

Lemma trace_main_ordered (w : world) :
  in_step_order_from Configure (trace (main w)).
Proof.
  rewrite trace_main.
  apply in_step_order_from_staged with (s' := DetectCheckpoint);
    [cbn; lia | apply configure_calls_staged |].
  apply in_step_order_from_staged with (s' := LoadModel);
    [cbn; lia | apply checkpoint_calls_staged |].
  destruct (output_dir_conflict w || pipeline_conflict w).
  - apply in_step_order_from_nil.
  - apply calls_from_model_loading_ordered.
Qed.

(** The calls of one step within the calls of one step. *)
Lemma calls_of_step_staged (s s' : step) (calls : list event) :
  staged s' calls ->
  calls_of_step s calls = if step_eqb s' s then calls else [].
Proof.
  unfold calls_of_step. induction 1 as [|e calls He _ IH]; cbn [filter].
  - destruct (step_eqb s' s); reflexivity.
  - rewrite IH, He. destruct (step_eqb s' s); reflexivity.
Qed.

Lemma calls_of_step_app (s : step) (calls calls' : list event) :
  calls_of_step s (calls ++ calls')
  = calls_of_step s calls ++ calls_of_step s calls'.
Proof. apply filter_app. Qed.

(** The calls of step [s] in a run of [main] that raises nothing. *)
Lemma calls_of_step_completed (w : world) (s : step) :
  result (main w) = Returned tt ->
  calls_of_step s (trace (main w))
  = match s with
    | Configure => configure_calls w
    | DetectCheckpoint => checkpoint_calls w
    | LoadModel =>
        [ModelFromPretrained (model_class_of w)
           (model_name_or_path (model_args_of w)) (kwargs_of w)]
    | WrapModel => lora_calls w ++ prefix_calls w
    | LoadTokenizer =>
        [TokenizerFromPretrained (model_name_or_path (model_args_of w))
           "left"]
    | BuildDatasets => dataset_calls w
    | ConstructTrainer =>
        [NewDataCollator (tokenizer_of w);
         NewLlamaTrainer (trainer_kwargs_of w)]
    | UseTrainer => training_calls w ++ evaluation_calls w
    end.
Proof.
  intros Hret. rewrite (completed_trace _ Hret).
  unfold calls_from_model_loading. rewrite !calls_of_step_app.
  rewrite (calls_of_step_staged s _ _ (configure_calls_staged w)).
  rewrite (calls_of_step_staged s _ _ (checkpoint_calls_staged w)).
  rewrite (calls_of_step_staged s _ _ (lora_calls_staged w)).
  rewrite (calls_of_step_staged s _ _ (prefix_calls_staged w)).
  rewrite (calls_of_step_staged s _ _ (dataset_calls_staged w)).
  rewrite (calls_of_step_staged s _ _ (training_calls_staged w)).
  rewrite (calls_of_step_staged s _ _ (evaluation_calls_staged w)).
  destruct s; cbn; rewrite ?app_nil_r; reflexivity.
Qed.

(** A run that gets to use the trainer has raised nothing and was asked to
    train or to evaluate. *)
Lemma trainer_use_needs_flags (w : world) (e : event) :
  In e (trace (main w)) ->
  step_of e = UseTrainer ->
  result (main w) = Returned tt
  /\ do_train (training_args_of w) || do_eval (training_args_of w) = true.
Proof.
  intros Hcall Hstep. rewrite trace_main in Hcall. rewrite result_main.
  destruct (output_dir_conflict w), (pipeline_conflict w); cbn [orb] in Hcall;
    find_call Hcall; subst e; try discriminate Hstep;
    split; try reflexivity;
    repeat match goal with
           | H : do_train _ = true |- _ => rewrite H
           | H : do_eval _ = true |- _ => rewrite H
           end;
    rewrite ?orb_true_r; reflexivity.
Qed.

(** C3.  In every run the calls of [main] come in the order of its steps:
    configuration (which starts with parsing the three dataclasses),
    checkpoint detection, loading the model, wrapping it, loading the
    tokenizer, building the datasets, constructing the trainer, using the
    trainer.  So the dataclasses are parsed before any model is loaded, and
    the datasets are loaded and the trainer constructed before any call on
    the trainer.  A run that raises nothing is exactly these steps one after
    the other, and it does execute them: one [from_pretrained] on the model
    class, wrapping calls exactly when an adapter is requested, one
    [from_pretrained] on the tokenizer, [load_dataset] first among the
    dataset calls exactly when [do_train] or [do_eval] is set, the collator
    and then the [LlamaTrainer], and only then [trainer.train], first among
    the trainer calls exactly when [do_train] is set, and [trainer.evaluate]
    exactly when [do_eval] is set. *)
Theorem steps_in_fixed_order (w : world) :
  let calls := trace (main w) in
  let model_args := fst (fst (parsed w)) in
  let training_args := snd (parsed w) in
  in_step_order calls
  /\ (exists rest, calls = ParseArgsIntoDataclasses :: rest)
  /\ (forall before e after,
        calls = before ++ e :: after ->
        step_of e = LoadModel ->
        In ParseArgsIntoDataclasses before)
  /\ (forall before e after,
        calls = before ++ e :: after ->
        step_of e = UseTrainer ->
        (exists task splits, In (LoadDataset task splits) before)
        /\ (exists kw, In (NewLlamaTrainer kw) before))
  /\ (result (main w) = Returned tt ->
      calls
      = calls_of_step Configure calls
        ++ calls_of_step DetectCheckpoint calls
        ++ calls_of_step LoadModel calls
        ++ calls_of_step WrapModel calls
        ++ calls_of_step LoadTokenizer calls
        ++ calls_of_step BuildDatasets calls
        ++ calls_of_step ConstructTrainer calls
        ++ calls_of_step UseTrainer calls
      /\ (exists rest,
             calls_of_step Configure calls = ParseArgsIntoDataclasses :: rest)
      /\ (exists cls name kw,
             calls_of_step LoadModel calls = [ModelFromPretrained cls name kw])
      /\ (calls_of_step WrapModel calls <> []
          <-> lora model_args = true \/ prefix_tuning model_args = true)
      /\ (exists name side,
             calls_of_step LoadTokenizer calls
             = [TokenizerFromPretrained name side])
      /\ ((exists task splits rest,
              calls_of_step BuildDatasets calls
              = LoadDataset task splits :: rest)
          <-> do_train training_args = true \/ do_eval training_args = true)
      /\ (do_train training_args = false -> do_eval training_args = false ->
          calls_of_step BuildDatasets calls = [])
      /\ (exists tok kw,
             calls_of_step ConstructTrainer calls
             = [NewDataCollator tok; NewLlamaTrainer kw])
      /\ ((exists resume rest,
              calls_of_step UseTrainer calls = TrainerTrain resume :: rest)
          <-> do_train training_args = true)
      /\ (In TrainerEvaluate (calls_of_step UseTrainer calls)
          <-> do_eval training_args = true)
      /\ (do_train training_args = false -> do_eval training_args = false ->
          calls_of_step UseTrainer calls = [])).
Proof.
  intros calls model_args training_args. subst calls.
  pose proof (trace_main_ordered w) as [Hordered _].
  assert (Hparse : In ParseArgsIntoDataclasses (trace (main w))).
  { rewrite trace_main. left. reflexivity. }
  split; [exact Hordered|]. split; [|split; [|split]].
  - rewrite trace_main. eexists. reflexivity.
  - intros before e after Hsplit Hstep.
    rewrite Hsplit in Hordered, Hparse.
    apply (earlier_step_earlier_call _ _ _ _ Hordered Hparse).
    rewrite Hstep. cbn. lia.
  - intros before e after Hsplit Hstep.
    assert (Hcall : In e (trace (main w))).
    { rewrite Hsplit. apply in_or_app. right. left. reflexivity. }
    destruct (trainer_use_needs_flags _ _ Hcall Hstep) as [Hret Hflags].
    assert (Hearlier : forall x,
               In x (calls_from_model_loading w) ->
               (position (step_of x) < 7)%nat -> In x before).
    { intros x Hx Hlt.
      assert (Hin : In x (trace (main w))).
      { rewrite (completed_trace _ Hret).
        do 2 (apply in_or_app; right). exact Hx. }
      rewrite Hsplit in Hordered, Hin.
      apply (earlier_step_earlier_call _ _ _ _ Hordered Hin).
      rewrite Hstep. exact Hlt. }
    split.
    + exists (task_name (data_args_of w)), ["train_v1"; "dev_v1"].
      apply Hearlier; [|cbn; lia].
      unfold calls_from_model_loading.
      do 4 (apply in_or_app; right). apply in_or_app; left.
      unfold dataset_calls. rewrite Hflags. left. reflexivity.
    + exists (trainer_kwargs_of w).
      apply Hearlier; [|cbn; lia].
      unfold calls_from_model_loading.
      do 5 (apply in_or_app; right). right. left. reflexivity.
  - intros Hret.
    rewrite !(calls_of_step_completed w _ Hret).
    assert (Htrain : do_train (training_args_of w) = do_train training_args)
      by reflexivity.
    assert (Heval : do_eval (training_args_of w) = do_eval training_args)
      by reflexivity.
    split; [|split; [|split; [|split; [|split; [|split;
      [|split; [|split; [|split; [|split]]]]]]]]].
    + rewrite (completed_trace _ Hret). unfold calls_from_model_loading.
      rewrite <- !app_assoc. reflexivity.
    + eexists. reflexivity.
    + do 3 eexists. reflexivity.
    + unfold lora_calls, prefix_calls, model_args_of. fold model_args.
      destruct (lora model_args), (prefix_tuning model_args); cbn;
        split; intros H; try discriminate; auto; try congruence;
        destruct H; discriminate.
    + do 2 eexists. reflexivity.
    + unfold dataset_calls. rewrite Htrain, Heval.
      destruct (do_train training_args), (do_eval training_args); cbn;
        split; intros H; auto; try (do 3 eexists; reflexivity);
        try (destruct H as (? & ? & ? & H); discriminate H);
        destruct H; discriminate.
    + intros Ht He. unfold dataset_calls. rewrite Htrain, Heval, Ht, He.
      reflexivity.
    + do 2 eexists. reflexivity.
    + unfold training_calls, evaluation_calls. rewrite Htrain, Heval.
      destruct (do_train training_args), (do_eval training_args); cbn;
        split; intros H; auto; try discriminate;
        try (do 2 eexists; reflexivity);
        destruct H as (? & ? & H); discriminate H.
    + unfold training_calls, evaluation_calls. rewrite Htrain, Heval.
      destruct (do_train training_args), (do_eval training_args); cbn;
        split; intros H; auto; try discriminate; try tauto;
        repeat (destruct H as [H | H]; try discriminate H);
        contradiction.
    + intros Ht He. unfold training_calls, evaluation_calls.
      rewrite Htrain, Heval, Ht, He. reflexivity.
Qed.

Lemma steps_in_fixed_order_witness :
  result (main Examples.fresh) = Returned tt
  /\ in_step_order (trace (main Examples.fresh))
  /\ (exists tok kw,
         calls_of_step ConstructTrainer (trace (main Examples.fresh))
         = [NewDataCollator tok; NewLlamaTrainer kw])
  /\ exists resume rest,
       calls_of_step UseTrainer (trace (main Examples.fresh))
       = TrainerTrain resume :: rest.
Proof.
  assert (Hret : result (main Examples.fresh) = Returned tt) by reflexivity.
  pose proof (steps_in_fixed_order Examples.fresh) as Hsteps.
  cbv zeta in Hsteps.
  destruct Hsteps as (Hordered & _ & _ & _ & Hcompleted).
  destruct (Hcompleted Hret)
    as (_ & _ & _ & _ & _ & _ & _ & Htrainer & Htrain & _).
  split; [exact Hret|]. split; [exact Hordered|]. split; [exact Htrainer|].
  apply Htrain. reflexivity.
Defined.

(* ------------------------------------------------------------------ *)
(** ** Using the trainer *)

(** C4.  In a run of [main] that raises nothing, the calls on the trainer
    are, in this order: if [do_train] is set, [train] with
    [resume_from_checkpoint=last_checkpoint], [save_model], [log_metrics],
    [save_metrics], [save_state]; then, if [do_eval] is set, [evaluate] and
    [log_metrics].  So [train] is called exactly when [do_train] is set,
    [evaluate] exactly when [do_eval] is set, and training comes first. *)
Theorem trainer_calls_follow_flags (w : world) :
  result (main w) = Returned tt ->
  let training_args := snd (parsed w) in
  let dir := output_dir training_args in
  let last_checkpoint :=
    if isdir w dir && do_train training_args
       && negb (overwrite_output_dir training_args)
    then last_checkpoint_in w dir else None in
  calls_of_step UseTrainer (trace (main w))
  = (if do_train training_args
     then [ TrainerTrain last_checkpoint;
            TrainerSaveModel (tensor_parallel_degree training_args >? 1);
            TrainerLogMetrics "train"; TrainerSaveMetrics "train";
            TrainerSaveState ]
     else [])
    ++ (if do_eval training_args
        then [TrainerEvaluate; TrainerLogMetrics "test"]
        else [])
  /\ ((exists resume, In (TrainerTrain resume) (trace (main w)))
      <-> do_train training_args = true)
  /\ (forall resume,
        In (TrainerTrain resume) (trace (main w)) -> resume = last_checkpoint)
  /\ (In TrainerEvaluate (trace (main w)) <-> do_eval training_args = true).
Proof.
  intros Hret training_args dir last_checkpoint.
  pose proof (calls_of_step_completed w UseTrainer Hret) as Hcalls.
  assert (Hiff : forall e,
             step_of e = UseTrainer ->
             In e (trace (main w))
             <-> In e (training_calls w ++ evaluation_calls w)).
  { intros e Hstep. rewrite <- Hcalls. unfold calls_of_step.
    rewrite filter_In, Hstep. cbn. tauto. }
  split; [exact Hcalls|]. split; [|split].
  - split.
    + intros (resume & Hcall). apply Hiff in Hcall; [|reflexivity].
      find_call Hcall. assumption.
    + intros Htrain. exists last_checkpoint. apply Hiff; [reflexivity|].
      apply in_or_app; left. unfold training_calls.
      cbn [training_args_of set_lr_decay_ratio do_train].
      fold training_args. rewrite Htrain. left. reflexivity.
  - intros resume Hcall. apply Hiff in Hcall; [|reflexivity].
    find_call Hcall. inversion Hcall. reflexivity.
  - split.
    + intros Hcall. apply Hiff in Hcall; [|reflexivity].
      find_call Hcall. assumption.
    + intros Heval. apply Hiff; [reflexivity|].
      apply in_or_app; right. unfold evaluation_calls.
      cbn [training_args_of set_lr_decay_ratio do_eval].
      fold training_args. rewrite Heval. left. reflexivity.
Qed.

Lemma trainer_calls_follow_flags_witness :
  result (main Examples.fresh) = Returned tt
  /\ calls_of_step UseTrainer (trace (main Examples.fresh))
     = [ TrainerTrain None; TrainerSaveModel false;
         TrainerLogMetrics "train"; TrainerSaveMetrics "train";
         TrainerSaveState; TrainerEvaluate; TrainerLogMetrics "test" ].
Proof.
  assert (Hret : result (main Examples.fresh) = Returned tt) by reflexivity.
  split; [exact Hret|].
  apply (proj1 (trainer_calls_follow_flags Examples.fresh Hret)).
Defined.

(* ------------------------------------------------------------------ *)
(** ** Datasets *)



(* ------------------------------------------------------------------ *)
(** ** One identifier for the model and the tokenizer *)

(** C6.  In a run of [main] that raises nothing there is exactly one
    [from_pretrained] call on the model class and exactly one on
    [AutoTokenizer], and both are given [model_args.model_name_or_path]. *)
Theorem one_from_pretrained_each (w : world) :
  result (main w) = Returned tt ->
  let name := model_name_or_path (fst (fst (parsed w))) in
  (exists cls kw,
      filter (fun e => match e with
                       | ModelFromPretrained _ _ _ => true
                       | _ => false
                       end) (trace (main w))
      = [ModelFromPretrained cls name kw])
  /\ (exists side,
         filter (fun e => match e with
                          | TokenizerFromPretrained _ _ => true
                          | _ => false
                          end) (trace (main w))
         = [TokenizerFromPretrained name side]).
Proof.
  intros Hret name. split.
  - exists (model_class_of w), (kwargs_of w).
    transitivity (calls_of_step LoadModel (trace (main w))).
    + apply filter_ext. intros []; reflexivity.
    + apply (calls_of_step_completed w LoadModel Hret).
  - exists "left".
    transitivity (calls_of_step LoadTokenizer (trace (main w))).
    + apply filter_ext. intros []; reflexivity.
    + apply (calls_of_step_completed w LoadTokenizer Hret).
Qed.

Lemma one_from_pretrained_each_witness :
  result (main Examples.fresh) = Returned tt
  /\ exists cls kw,
       filter (fun e => match e with
                        | ModelFromPretrained _ _ _ => true
                        | _ => false
                        end) (trace (main Examples.fresh))
       = [ModelFromPretrained cls "facebook/llama-7b" kw].
Proof.
  assert (Hret : result (main Examples.fresh) = Returned tt) by reflexivity.
  split; [exact Hret|].
  apply (proj1 (one_from_pretrained_each Examples.fresh Hret)).
Defined.

(* ------------------------------------------------------------------ *)
(** ** What [compute_metrics_trainer] scores *)

Lemma lstrip_by_split (p : N -> bool) (s : PyStr.t) :
  exists dropped,
    s = dropped ++ PyStr.lstrip_by p s
    /\ Forall (fun c => p c = true) dropped.
Proof.
  induction s as [|c s IH]; cbn.
  - exists []. split; [reflexivity | constructor].
  - destruct (p c) eqn:Hc.
    + destruct IH as (dropped & Hs & Hdropped).
      exists (c :: dropped). split.
      * cbn. f_equal. exact Hs.
      * constructor; assumption.
    + exists []. split; [reflexivity | constructor].
Qed.

Lemma lstrip_by_head (p : N -> bool) (s : PyStr.t) (c : N) (rest : PyStr.t) :
  PyStr.lstrip_by p s = c :: rest -> p c = false.
Proof.
  induction s as [|c' s IH]; cbn; [discriminate|].
  destruct (p c') eqn:Hc; [exact IH|].
  intros H. injection H as -> _. exact Hc.
Qed.

Lemma rstrip_by_split (p : N -> bool) (s : PyStr.t) :
  exists dropped,
    s = PyStr.rstrip_by p s ++ dropped
    /\ Forall (fun c => p c = true) dropped.
Proof.
  unfold PyStr.rstrip_by.
  destruct (lstrip_by_split p (rev s)) as (dropped & Hs & Hdropped).
  exists (rev dropped). split.
  - rewrite <- rev_app_distr, <- Hs, rev_involutive. reflexivity.
  - apply Forall_rev. exact Hdropped.
Qed.

Lemma rstrip_by_last (p : N -> bool) (s : PyStr.t) (c : N) (rest : PyStr.t) :
  PyStr.rstrip_by p s = rest ++ [c] -> p c = false.
Proof.
  unfold PyStr.rstrip_by. intros H.
  apply (f_equal (@rev N)) in H.
  rewrite rev_involutive, rev_app_distr in H. cbn in H.
  exact (lstrip_by_head _ _ _ _ H).
Qed.

(** [strip] keeps one contiguous piece, whose ends it would not drop. *)
Lemma strip_by_spec (p : N -> bool) (s : PyStr.t) :
  let kept := PyStr.rstrip_by p (PyStr.lstrip_by p s) in
  (exists before after,
      s = before ++ kept ++ after
      /\ Forall (fun c => p c = true) before
      /\ Forall (fun c => p c = true) after)
  /\ (forall c rest, kept = c :: rest -> p c = false)
  /\ (forall c rest, kept = rest ++ [c] -> p c = false).
Proof.
  intros kept.
  destruct (lstrip_by_split p s) as (before & Hs & Hbefore).
  destruct (rstrip_by_split p (PyStr.lstrip_by p s))
    as (after & Ht & Hafter).
  fold kept in Ht.
  split; [|split].
  - exists before, after. split; [|split; assumption].
    rewrite <- Ht. exact Hs.
  - intros c rest Hkept. rewrite Hkept in Ht. cbn in Ht.
    exact (lstrip_by_head _ _ _ _ Ht).
  - intros c rest Hkept. exact (rstrip_by_last _ _ _ _ Hkept).
Qed.

(* ------------------------------------------------------------------ *)
(** ** Further properties of [main] *)

(** A call from line 125 on is made only by a run that raises nothing. *)
Lemma late_call_completed (w : world) (e : event) :
  In e (trace (main w)) ->
  (2 <= position (step_of e))%nat ->
  result (main w) = Returned tt /\ In e (calls_from_model_loading w).
Proof.
  intros Hcall Hlate. rewrite trace_main in Hcall. rewrite result_main.
  apply in_app_or in Hcall as [Hcall | Hcall].
  { pose proof (configure_calls_staged w) as Hst.
    unfold staged in Hst. rewrite Forall_forall in Hst.
    rewrite (Hst _ Hcall) in Hlate. cbn in Hlate. lia. }
  apply in_app_or in Hcall as [Hcall | Hcall].
  { pose proof (checkpoint_calls_staged w) as Hst.
    unfold staged in Hst. rewrite Forall_forall in Hst.
    rewrite (Hst _ Hcall) in Hlate. cbn in Hlate. lia. }
  destruct (output_dir_conflict w); [contradiction|].
  destruct (pipeline_conflict w); [contradiction|].
  split; [reflexivity | exact Hcall].
Qed.

Lemma trainer_built (w : world) (kw : trainer_kwargs) :
  In (NewLlamaTrainer kw) (trace (main w)) ->
  kw = trainer_kwargs_of w /\ result (main w) = Returned tt.
Proof.
  intros Hcall.
  destruct (late_call_completed w _ Hcall) as [Hret Hfrom]; [cbn; lia|].
  split; [|exact Hret]. find_call Hfrom. congruence.
Qed.

(** The names [train_ds], [dev_ds] and [trans_func] are bound only under the
    [if] of line 176, yet every later use finds them bound: whatever the
    arguments, building the datasets and constructing the trainer raise
    nothing, and [main] never raises an [UnboundLocalError]. *)
Theorem conditional_names_bound_where_used
    (model_args : ModelArgument) (data_args : DataArgument)
    (training_args : TrainingArguments) (tok : tokenizer) (m : model) :
  (exists train_ds dev_ds kw,
      result (build_datasets model_args data_args training_args tok)
      = Returned (train_ds, dev_ds)
      /\ result (make_trainer model_args training_args m tok train_ds dev_ds)
         = Returned kw
      /\ (do_train training_args = true -> train_ds <> None)
      /\ (do_eval training_args = true -> dev_ds <> None)
      /\ (do_train training_args = false -> do_eval training_args = false ->
          train_ds = None /\ dev_ds = None))
  /\ (forall w name, result (main w) <> Raised (UnboundLocalError name)).
Proof.
  split.
  - unfold build_datasets, make_trainer.
    destruct (do_train training_args), (do_eval training_args); cbn;
      do 3 eexists; (split; [reflexivity|]); (split; [reflexivity|]);
      repeat split; intros; congruence.
  - intros w name. rewrite result_main.
    destruct (output_dir_conflict w); [discriminate|].
    destruct (pipeline_conflict w); discriminate.
Qed.

(** The three outcomes of [main]: it returns exactly when neither the
    output-directory conditions nor the pipeline conditions hold, and it
    raises the pipeline error of line 121 exactly when the pipeline
    conditions hold and the output-directory conditions do not, the check of
    line 99 coming first. *)
Theorem main_outcomes (w : world) :
  (result (main w) = Returned tt
   <-> ~ output_dir_conditions w /\ ~ pipeline_conditions w)
  /\ (result (main w) = Raised (ValueError pipeline_message)
      <-> ~ output_dir_conditions w /\ pipeline_conditions w)
  /\ (output_dir_conditions w -> pipeline_conditions w ->
      result (main w)
      = Raised (ValueError
                  (output_dir_message (output_dir (snd (parsed w)))))).
Proof.
  rewrite <- output_dir_conflict_iff, <- pipeline_conflict_iff.
  rewrite result_main.
  pose proof (@output_dir_message_not_pipeline
                (output_dir (training_args_of w))) as Hmsg.
  destruct (output_dir_conflict w), (pipeline_conflict w);
    (split; [|split]); try split; intros; try reflexivity;
    try discriminate; try tauto; try congruence;
    try (split; congruence).
Qed.

Lemma main_outcomes_witness :
  output_dir_conditions Crowded.two_entries
  /\ result (main Examples.fresh) = Returned tt
  /\ result (main Pipeline.evaluating) = Raised (ValueError pipeline_message).
Proof.
  assert (Hcond : output_dir_conditions Crowded.two_entries)
    by (repeat split; cbn; lia).
  split; [exact Hcond|]. split.
  - apply (proj1 (main_outcomes Examples.fresh)). split.
    + intros (Hdir & _). discriminate Hdir.
    + intros (Hdeg & _). cbn in Hdeg. lia.
  - apply (proj1 (proj2 (main_outcomes Pipeline.evaluating))). split.
    + intros (Hdir & _). discriminate Hdir.
    + repeat split; cbn; lia.
Defined.

(** A run that raises has made exactly these calls and no other: the six
    configuration calls; [os.path.isdir] on [output_dir]; then, if line 97 is
    passed, [get_last_checkpoint], followed by [os.listdir] when no
    checkpoint is found, or by the [logger.info] of line 105 when one is
    found and [resume_from_checkpoint] is [None].  It has loaded no model
    and no tokenizer, built no dataset and no trainer. *)
Theorem raising_run_only_configures_and_probes (w : world) (e : exn) :
  result (main w) = Raised e ->
  let model_args := fst (fst (parsed w)) in
  let training_args := snd (parsed w) in
  let dir := output_dir training_args in
  trace (main w)
  = [ ParseArgsIntoDataclasses; PrintConfig "Model"; PrintConfig "Data";
      SetDevice (device training_args);
      SetSeed (set_lr_decay_ratio training_args (lr_decay_ratio model_args));
      LoggerWarning (local_rank training_args) (device training_args)
        (world_size training_args)
        (negb (local_rank training_args =? -1))
        (fp16 training_args || bf16 training_args);
      OsPathIsdir dir ]
    ++ (if isdir w dir && do_train training_args
           && negb (overwrite_output_dir training_args)
        then
          GetLastCheckpoint dir ::
          match last_checkpoint_in w dir with
          | None => [OsListdir dir]
          | Some found =>
              match resume_from_checkpoint training_args with
              | None => [LoggerInfo found]
              | Some _ => []
              end
          end
        else [])
  /\ (forall c, In c (trace (main w)) ->
        step_of c = Configure \/ step_of c = DetectCheckpoint).
Proof.
  intros Hraise model_args training_args dir.
  assert (Htrace : trace (main w) = configure_calls w ++ checkpoint_calls w).
  { rewrite trace_main. rewrite result_main in Hraise.
    destruct (output_dir_conflict w); cbn [orb];
      [rewrite app_nil_r; reflexivity|].
    destruct (pipeline_conflict w); [|discriminate].
    rewrite app_nil_r. reflexivity. }
  split.
  - rewrite Htrace. unfold configure_calls, checkpoint_calls,
      looks_for_checkpoint, model_args_of.
    cbn [training_args_of set_lr_decay_ratio output_dir do_train
         overwrite_output_dir resume_from_checkpoint device local_rank
         world_size fp16 bf16 app].
    fold model_args training_args dir.
    destruct (isdir w dir && do_train training_args
              && negb (overwrite_output_dir training_args));
      [|reflexivity].
    destruct (last_checkpoint_in w dir); [|reflexivity].
    destruct (resume_from_checkpoint training_args); reflexivity.
  - intros c Hc. rewrite Htrace in Hc.
    apply in_app_or in Hc as [Hc | Hc].
    + left. pose proof (configure_calls_staged w) as Hst.
      unfold staged in Hst. rewrite Forall_forall in Hst. auto.
    + right. pose proof (checkpoint_calls_staged w) as Hst.
      unfold staged in Hst. rewrite Forall_forall in Hst. auto.
Qed.

Lemma raising_run_only_configures_and_probes_witness :
  result (main Crowded.two_entries)
  = Raised (ValueError (output_dir_message "./checkpoints/"))
  /\ List.length (trace (main Crowded.two_entries)) = 9%nat
  /\ forall c, In c (trace (main Crowded.two_entries)) ->
       step_of c = Configure \/ step_of c = DetectCheckpoint.
Proof.
  assert (Hraise : result (main Crowded.two_entries)
                   = Raised (ValueError (output_dir_message "./checkpoints/")))
    by reflexivity.
  pose proof (raising_run_only_configures_and_probes
                Crowded.two_entries _ Hraise) as Hcalls.
  cbv zeta in Hcalls. destruct Hcalls as [Htrace Hsteps].
  split; [exact Hraise|]. split; [|exact Hsteps].
  rewrite Htrace. reflexivity.
Defined.

(** The probes of every run: [os.path.isdir] is asked once, about
    [output_dir]; [get_last_checkpoint] is asked exactly when that is a
    directory, [do_train] is set and [overwrite_output_dir] is not;
    [os.listdir] is asked exactly when, on top of that, no checkpoint was
    found.  All probes are about [output_dir]. *)
Theorem output_dir_probes (w : world) :
  let training_args := snd (parsed w) in
  let dir := output_dir training_args in
  let guard :=
    isdir w dir && do_train training_args
    && negb (overwrite_output_dir training_args) in
  filter (fun e => match e with OsPathIsdir _ => true | _ => false end)
    (trace (main w)) = [OsPathIsdir dir]
  /\ (forall path,
        In (GetLastCheckpoint path) (trace (main w))
        <-> path = dir /\ guard = true)
  /\ (forall path,
        In (OsListdir path) (trace (main w))
        <-> path = dir /\ guard = true /\ last_checkpoint_in w dir = None).
Proof.
  intros training_args dir guard.
  assert (Hprobe : forall e,
             step_of e = DetectCheckpoint ->
             In e (trace (main w)) <-> In e (checkpoint_calls w)).
  { intros e Hstep. rewrite trace_main. rewrite !in_app_iff. split.
    - intros [Hc | [Hc | Hc]]; [| exact Hc |].
      + pose proof (configure_calls_staged w) as Hst.
        unfold staged in Hst. rewrite Forall_forall in Hst.
        rewrite (Hst _ Hc) in Hstep. discriminate.
      + destruct (output_dir_conflict w || pipeline_conflict w);
          [contradiction|].
        pose proof (calls_from_model_loading_ordered w) as [_ Hfrom].
        rewrite Forall_forall in Hfrom. apply Hfrom in Hc.
        rewrite Hstep in Hc. cbn in Hc. lia.
    - intros Hc. right. left. exact Hc. }
  assert (Hguard : looks_for_checkpoint w = guard) by reflexivity.
  split; [|split].
  - rewrite trace_main, !filter_app.
    assert (Hnone : forall calls,
               Forall (fun e => step_of e <> DetectCheckpoint) calls ->
               filter (fun e => match e with
                                | OsPathIsdir _ => true
                                | _ => false
                                end) calls = []).
    { induction 1 as [|e calls He _ IH]; [reflexivity|]. cbn.
      rewrite IH. destruct e; try reflexivity. now elim He. }
    rewrite (Hnone (configure_calls w)).
    2:{ eapply Forall_impl; [|apply configure_calls_staged].
        cbn. intros e ->. discriminate. }
    rewrite (Hnone (if output_dir_conflict w || pipeline_conflict w
                    then [] else calls_from_model_loading w)).
    2:{ destruct (output_dir_conflict w || pipeline_conflict w);
          [constructor|].
        pose proof (calls_from_model_loading_ordered w) as [_ Hfrom].
        eapply Forall_impl; [|exact Hfrom].
        cbn. intros e He Hstep. rewrite Hstep in He. cbn in He. lia. }
    unfold checkpoint_calls. cbv zeta. rewrite Hguard.
    destruct guard; [|reflexivity].
    destruct (last_checkpoint_in w _); [|reflexivity].
    destruct (is_none _); reflexivity.
  - intros path. rewrite Hprobe by reflexivity. split.
    + intros Hc. unfold checkpoint_calls in Hc. cbv zeta in Hc.
      find_call Hc; injection Hc as <-;
        (split; [reflexivity | now rewrite <- Hguard]).
    + intros [-> Hg]. unfold checkpoint_calls. cbv zeta.
      rewrite Hguard, Hg. right. left. reflexivity.
  - intros path. rewrite Hprobe by reflexivity. split.
    + intros Hc. unfold checkpoint_calls in Hc. cbv zeta in Hc.
      find_call Hc; injection Hc as <-.
      split; [reflexivity|]. split; [now rewrite <- Hguard | assumption].
    + intros (-> & Hg & Hnone). unfold checkpoint_calls. cbv zeta.
      rewrite Hguard, Hg.
      change (output_dir (training_args_of w)) with dir.
      rewrite Hnone. do 2 right. left. reflexivity.
Qed.

(** What [main] sees of the file system: whether [output_dir] is a
    directory; when line 97 is passed, the checkpoint found there; and when
    none is found, only whether the directory holds more than one entry, not
    which.  Two worlds that agree on the parsed arguments and on these run
    alike. *)
Theorem main_depends_on_probes_only (w w' : world) :
  parsed w = parsed w' ->
  let training_args := snd (parsed w) in
  let dir := output_dir training_args in
  isdir w dir = isdir w' dir ->
  (isdir w dir = true -> do_train training_args = true ->
   overwrite_output_dir training_args = false ->
   last_checkpoint_in w dir = last_checkpoint_in w' dir
   /\ (last_checkpoint_in w dir = None ->
       (Z.of_nat (List.length (listdir w dir)) >? 1)
       = (Z.of_nat (List.length (listdir w' dir)) >? 1))) ->
  main w = main w'.
Proof.
  destruct w as [p i c l], w' as [p' i' c' l']. cbn.
  intros <-. destruct p as [[model_args data_args] training_args]. cbn.
  intros Hdir Hguard.
  unfold main, parse_and_configure, detect_last_checkpoint. cbn.
  rewrite <- Hdir.
  destruct (i (output_dir training_args)); cbn; [|reflexivity].
  destruct (do_train training_args) eqn:Htrain; cbn; [|reflexivity].
  destruct (overwrite_output_dir training_args); cbn; [reflexivity|].
  destruct Hguard as [Hfound Hcount]; try reflexivity.
  rewrite <- Hfound.
  destruct (c (output_dir training_args)) as [found|]; cbn; [reflexivity|].
  rewrite <- Hcount by reflexivity. reflexivity.
Qed.

Lemma main_depends_on_probes_only_witness :
  main Examples.fresh = main Resuming.absent.
Proof.
  apply (main_depends_on_probes_only Examples.fresh Resuming.absent);
    [reflexivity | reflexivity | discriminate].
Defined.

(** When line 97 is passed and a checkpoint is found, [main] does not list
    the directory and does not raise the output-directory error however
    crowded the directory is; it logs that it resumes exactly when
    [training_args.resume_from_checkpoint] is [None]; and if it trains, it
    passes the checkpoint found to [trainer.train]. *)
Theorem found_checkpoint_is_resumed (w : world) (found : string) :
  let training_args := snd (parsed w) in
  let dir := output_dir training_args in
  isdir w dir = true ->
  do_train training_args = true ->
  overwrite_output_dir training_args = false ->
  last_checkpoint_in w dir = Some found ->
  (forall path, ~ In (OsListdir path) (trace (main w)))
  /\ result (main w) <> Raised (ValueError (output_dir_message dir))
  /\ (forall c,
        In (LoggerInfo c) (trace (main w))
        <-> c = found /\ resume_from_checkpoint training_args = None)
  /\ (result (main w) = Returned tt ->
      In (TrainerTrain (Some found)) (trace (main w)))
  /\ (forall resume,
        In (TrainerTrain resume) (trace (main w)) -> resume = Some found).
Proof.
  intros training_args dir Hdir Htrain Hover Hfound.
  assert (Hlooks : looks_for_checkpoint w = true).
  { unfold looks_for_checkpoint.
    cbn [training_args_of set_lr_decay_ratio output_dir do_train
         overwrite_output_dir].
    fold training_args dir. rewrite Hdir, Htrain, Hover. reflexivity. }
  assert (Hconflict : output_dir_conflict w = false).
  { unfold output_dir_conflict. rewrite Hlooks.
    cbn [training_args_of set_lr_decay_ratio output_dir].
    fold training_args dir. rewrite Hfound. reflexivity. }
  assert (Hcalls : checkpoint_calls w
                   = OsPathIsdir dir :: GetLastCheckpoint dir ::
                     (if is_none (resume_from_checkpoint training_args)
                      then [LoggerInfo found] else [])).
  { unfold checkpoint_calls. cbv zeta. rewrite Hlooks.
    cbn [training_args_of set_lr_decay_ratio output_dir
         resume_from_checkpoint].
    fold training_args dir. rewrite Hfound. reflexivity. }
  assert (Hlast : last_checkpoint_of w = Some found).
  { unfold last_checkpoint_of. rewrite Hlooks. exact Hfound. }
  assert (Hprobe : forall e,
             step_of e = DetectCheckpoint ->
             In e (trace (main w)) -> In e (checkpoint_calls w)).
  { intros e Hstep Hc. rewrite trace_main in Hc.
    apply in_app_or in Hc as [Hc | Hc].
    - pose proof (configure_calls_staged w) as Hst.
      unfold staged in Hst. rewrite Forall_forall in Hst.
      rewrite (Hst _ Hc) in Hstep. discriminate.
    - apply in_app_or in Hc as [Hc | Hc]; [exact Hc|].
      destruct (output_dir_conflict w || pipeline_conflict w);
        [contradiction|].
      pose proof (calls_from_model_loading_ordered w) as [_ Hfrom].
      rewrite Forall_forall in Hfrom. apply Hfrom in Hc.
      rewrite Hstep in Hc. cbn in Hc. lia. }
  split; [|split; [|split; [|split]]].
  - intros path Hc. apply Hprobe in Hc; [|reflexivity].
    rewrite Hcalls in Hc.
    destruct (is_none _); cbn in Hc;
      repeat (destruct Hc as [Hc | Hc]; try discriminate Hc);
      contradiction.
  - rewrite result_main, Hconflict.
    destruct (pipeline_conflict w); [|discriminate].
    intros H. apply (@output_dir_message_not_pipeline dir). congruence.
  - intros c. split.
    + intros Hc. apply Hprobe in Hc; [|reflexivity].
      rewrite Hcalls in Hc.
      destruct (resume_from_checkpoint training_args); cbn in Hc;
        repeat (destruct Hc as [Hc | Hc]; try discriminate Hc);
        try contradiction.
      injection Hc as <-. split; reflexivity.
    + intros [-> Hnone]. rewrite trace_main.
      apply in_or_app; right. apply in_or_app; left.
      rewrite Hcalls, Hnone. do 2 right. left. reflexivity.
  - intros Hret. rewrite (completed_trace _ Hret).
    do 2 (apply in_or_app; right). unfold calls_from_model_loading.
    do 6 (apply in_or_app; right). apply in_or_app; left.
    unfold training_calls.
    cbn [training_args_of set_lr_decay_ratio do_train].
    fold training_args. rewrite Htrain, Hlast. left. reflexivity.
  - intros resume Hc.
    destruct (late_call_completed w _ Hc) as [_ Hfrom]; [cbn; lia|].
    find_call Hfrom. congruence.
Qed.

Lemma found_checkpoint_is_resumed_witness :
  result (main Resuming.run) = Returned tt
  /\ In (TrainerTrain (Some "./checkpoints/checkpoint-500"))
       (trace (main Resuming.run))
  /\ In (LoggerInfo "./checkpoints/checkpoint-500")
       (trace (main Resuming.run)).
Proof.
  assert (Hret : result (main Resuming.run) = Returned tt) by reflexivity.
  pose proof (found_checkpoint_is_resumed Resuming.run
                "./checkpoints/checkpoint-500"
                eq_refl eq_refl eq_refl eq_refl) as Hresumed.
  cbv zeta in Hresumed.
  destruct Hresumed as (_ & _ & Hlog & Htrain & _).
  split; [exact Hret|]. split.
  - apply Htrain, Hret.
  - apply Hlog. split; reflexivity.
Defined.

(** [training_args.resume_from_checkpoint] is never what [trainer.train]
    is given: with [overwrite_output_dir] set, or with an [output_dir] that
    is not a directory, every [trainer.train] call passes
    [resume_from_checkpoint=None] and no checkpoint is looked for, whatever
    the arguments ask to resume from. *)
Theorem no_resume_without_lookup (w : world) :
  let training_args := snd (parsed w) in
  overwrite_output_dir training_args = true
  \/ isdir w (output_dir training_args) = false ->
  (forall resume, In (TrainerTrain resume) (trace (main w)) -> resume = None)
  /\ (forall path, ~ In (GetLastCheckpoint path) (trace (main w)))
  /\ (do_train training_args = true ->
      ~ pipeline_conditions w ->
      In (TrainerTrain None) (trace (main w))).
Proof.
  intros training_args Hskip.
  assert (Hlooks : looks_for_checkpoint w = false).
  { unfold looks_for_checkpoint.
    cbn [training_args_of set_lr_decay_ratio output_dir do_train
         overwrite_output_dir].
    fold training_args.
    destruct Hskip as [-> | ->];
      [rewrite andb_false_r | ]; reflexivity. }
  assert (Hlast : last_checkpoint_of w = None).
  { unfold last_checkpoint_of. rewrite Hlooks. reflexivity. }
  assert (Hconflict : output_dir_conflict w = false).
  { unfold output_dir_conflict. rewrite Hlooks. reflexivity. }
  split; [|split].
  - intros resume Hc.
    destruct (late_call_completed w _ Hc) as [_ Hfrom]; [cbn; lia|].
    find_call Hfrom. congruence.
  - intros path Hc. rewrite trace_main in Hc.
    unfold checkpoint_calls in Hc. cbv zeta in Hc. rewrite Hlooks in Hc.
    rewrite Hconflict in Hc. cbn [orb] in Hc.
    destruct (pipeline_conflict w); find_call Hc.
  - intros Htrain Hpipe.
    rewrite <- pipeline_conflict_iff in Hpipe.
    apply not_true_is_false in Hpipe.
    rewrite (main_completes _ Hconflict Hpipe). cbn [trace fst].
    do 2 (apply in_or_app; right). unfold calls_from_model_loading.
    do 6 (apply in_or_app; right). apply in_or_app; left.
    unfold training_calls.
    cbn [training_args_of set_lr_decay_ratio do_train].
    fold training_args. rewrite Htrain, Hlast. left. reflexivity.
Qed.

Lemma no_resume_without_lookup_witness :
  resume_from_checkpoint (snd (parsed Overwriting.run))
  = Some "./checkpoints/checkpoint-500"
  /\ In (TrainerTrain None) (trace (main Overwriting.run)).
Proof.
  split; [reflexivity|].
  apply (proj2 (proj2 (no_resume_without_lookup Overwriting.run
                         (or_introl eq_refl)))).
  - reflexivity.
  - intros (Hdeg & _). cbn in Hdeg. lia.
Defined.

(** The trainer is given the metrics closure exactly when
    [eval_with_do_generation] and [do_eval] are both set, and [None]
    otherwise; [do_generation] is [eval_with_do_generation].  So a trainer
    built under pipeline parallelism never has the metrics closure. *)
Theorem metrics_closure_follows_flags (w : world) (kw : trainer_kwargs) :
  In (NewLlamaTrainer kw) (trace (main w)) ->
  let model_args := fst (fst (parsed w)) in
  let training_args := snd (parsed w) in
  (compute_metrics_arg kw = Some (ComputeMetricsTrainer (tr_tokenizer kw))
   <-> eval_with_do_generation model_args = true
       /\ do_eval training_args = true)
  /\ (compute_metrics_arg kw = None
      <-> eval_with_do_generation model_args = false
          \/ do_eval training_args = false)
  /\ do_generation kw = eval_with_do_generation model_args
  /\ (pipeline_parallel_degree training_args > 1 ->
      compute_metrics_arg kw = None).
Proof.
  intros Hcall model_args training_args.
  destruct (trainer_built w kw Hcall) as [-> Hret].
  assert (Hpipe : pipeline_conflict w = false).
  { rewrite result_main in Hret.
    destruct (output_dir_conflict w); [discriminate|].
    destruct (pipeline_conflict w); [discriminate | reflexivity]. }
  unfold pipeline_conflict, model_args_of in Hpipe.
  cbn [training_args_of set_lr_decay_ratio pipeline_parallel_degree do_eval]
    in Hpipe.
  fold model_args training_args in Hpipe.
  unfold trainer_kwargs_of, model_args_of.
  cbn [compute_metrics_arg do_generation tr_tokenizer training_args_of
       set_lr_decay_ratio do_eval].
  fold model_args training_args.
  split; [|split; [|split]].
  - destruct (eval_with_do_generation model_args), (do_eval training_args);
      cbn; split; intros H; try discriminate H; try (split; reflexivity);
      try reflexivity; destruct H; discriminate.
  - destruct (eval_with_do_generation model_args), (do_eval training_args);
      cbn; split; intros H; try discriminate H; try reflexivity;
      auto; destruct H; discriminate.
  - reflexivity.
  - intros Hdeg.
    destruct (eval_with_do_generation model_args), (do_eval training_args);
      cbn; try reflexivity.
    exfalso. rewrite !andb_true_r, Z.gtb_ltb in Hpipe.
    apply Z.ltb_ge in Hpipe. lia.
Qed.

Lemma metrics_closure_follows_flags_witness :
  In (NewLlamaTrainer (trainer_kwargs_of Examples.fresh))
     (trace (main Examples.fresh))
  /\ compute_metrics_arg (trainer_kwargs_of Examples.fresh)
     = Some (ComputeMetricsTrainer (tokenizer_of Examples.fresh)).
Proof.
  assert (Hcall : In (NewLlamaTrainer (trainer_kwargs_of Examples.fresh))
                     (trace (main Examples.fresh))).
  { apply trainer_constructed; reflexivity. }
  split; [exact Hcall|].
  apply (proj1 (metrics_closure_follows_flags Examples.fresh _ Hcall)).
  split; reflexivity.
Defined.

(** One tokenizer serves the whole run: the tokenizer given to the trainer
    is the one the collator was built on, the one bound in the metrics
    closure and the one bound in every conversion function mapped over a
    dataset; it was loaded from [model_name_or_path] with left padding and
    has had its [pad_token] set to its [unk_token]. *)
Theorem one_tokenizer_throughout (w : world) (kw : trainer_kwargs) :
  In (NewLlamaTrainer kw) (trace (main w)) ->
  let tok := tr_tokenizer kw in
  tok_name tok = model_name_or_path (fst (fst (parsed w)))
  /\ padding_side tok = "left"
  /\ pad_token tok = PadIsUnkToken
  /\ data_collator kw = tok
  /\ In (NewDataCollator tok) (trace (main w))
  /\ (forall tok', In (NewDataCollator tok') (trace (main w)) -> tok' = tok)
  /\ (forall closure,
        compute_metrics_arg kw = Some closure ->
        closure = ComputeMetricsTrainer tok)
  /\ (forall ds f,
        In (DatasetMap ds f) (trace (main w)) -> tf_tokenizer f = tok).
Proof.
  intros Hcall tok.
  destruct (trainer_built w kw Hcall) as [-> Hret]. subst tok.
  cbn [trainer_kwargs_of tr_tokenizer data_collator compute_metrics_arg].
  split; [reflexivity|]. split; [reflexivity|]. split; [reflexivity|].
  split; [reflexivity|]. split; [|split; [|split]].
  - rewrite (completed_trace _ Hret).
    do 2 (apply in_or_app; right). unfold calls_from_model_loading.
    do 5 (apply in_or_app; right). left. reflexivity.
  - intros tok' Hc.
    destruct (late_call_completed w _ Hc) as [_ Hfrom]; [cbn; lia|].
    find_call Hfrom. congruence.
  - intros closure.
    destruct (eval_with_do_generation _ && do_eval _); congruence.
  - intros ds f Hc.
    destruct (late_call_completed w _ Hc) as [_ Hfrom]; [cbn; lia|].
    find_call Hfrom; injection Hfrom as _ <-; reflexivity.
Qed.

Lemma one_tokenizer_throughout_witness :
  In (NewLlamaTrainer (trainer_kwargs_of Examples.fresh))
     (trace (main Examples.fresh))
  /\ pad_token (tr_tokenizer (trainer_kwargs_of Examples.fresh))
     = PadIsUnkToken.
Proof.
  assert (Hcall : In (NewLlamaTrainer (trainer_kwargs_of Examples.fresh))
                     (trace (main Examples.fresh))).
  { apply trainer_constructed; reflexivity. }
  split; [exact Hcall|].
  apply (proj1 (proj2 (proj2
           (one_tokenizer_throughout Examples.fresh _ Hcall)))).
Defined.

(** The adapters are configured consistently with the model they wrap:
    the [dtype] and [tensor_parallel_degree] of the [LoRAConfig] and the
    [dtype] of the [PrefixConfig] are those [from_pretrained] was called
    with; the LoRA rank, alpha and target modules and the number of prefix
    tokens are fixed; and the prefix sizes are read from the configuration
    of the very model the prefix wraps. *)
Theorem adapter_configs_match_model
    (w : world) (cls : model_class) (name : string) (kw : pretrained_kwargs) :
  In (ModelFromPretrained cls name kw) (trace (main w)) ->
  (forall m c,
      In (NewLoRAModel m c) (trace (main w)) ->
      lc_dtype c = pk_dtype kw
      /\ lc_tensor_parallel_degree c = pk_tensor_parallel_degree kw
      /\ r c = 4 /\ lora_alpha c = 8 /\ merge_weights c = false
      /\ target_modules c = [".*q_proj.*"; ".*v_proj.*"])
  /\ (forall m c,
        In (NewPrefixModel m c) (trace (main w)) ->
        pc_dtype c = pk_dtype kw
        /\ num_prefix_tokens c = 10
        /\ prefix_projection c = true
        /\ num_attention_heads c = ConfigAttr m "n_head"
        /\ num_hidden_layers c = ConfigAttr m "n_layer"
        /\ hidden_size c = ConfigAttr m "hidden_size"
        /\ prefix_projection_hidden_size c = hidden_size c)
  /\ pk_tensor_parallel_degree kw = tensor_parallel_degree (snd (parsed w))
  /\ pk_tensor_parallel_rank kw = tensor_parallel_rank (snd (parsed w))
  /\ pk_fp16_opt_level kw = fp16_opt_level (snd (parsed w))
  /\ pk_use_flash_attention kw = use_flash_attention (fst (fst (parsed w)))
  /\ use_recompute kw = recompute (snd (parsed w))
  /\ load_state_as_np kw = true /\ low_cpu_mem_usage kw = true.
Proof.
  intros Hload.
  destruct (late_call_completed w _ Hload) as [_ Hfrom]; [cbn; lia|].
  find_call Hfrom. injection Hfrom as <- <- <-.
  split; [|split].
  - intros m c Hc.
    destruct (late_call_completed w _ Hc) as [_ Hc']; [cbn; lia|].
    find_call Hc'. injection Hc' as <- <-. repeat split.
  - intros m c Hc.
    destruct (late_call_completed w _ Hc) as [_ Hc']; [cbn; lia|].
    find_call Hc'. injection Hc' as <- <-. repeat split.
  - repeat split.
Qed.

Lemma adapter_configs_match_model_witness :
  In (ModelFromPretrained AutoModelForCausalLM "facebook/llama-7b"
        (kwargs_of Adapters.both))
     (trace (main Adapters.both))
  /\ forall m c,
       In (NewLoRAModel m c) (trace (main Adapters.both)) ->
       lc_dtype c = "bfloat16".
Proof.
  assert (Hload : In (ModelFromPretrained AutoModelForCausalLM
                        "facebook/llama-7b" (kwargs_of Adapters.both))
                     (trace (main Adapters.both))).
  { cbn. do 7 right. left. reflexivity. }
  split; [exact Hload|].
  intros m c Hc.
  apply (proj1 (adapter_configs_match_model Adapters.both _ _ _ Hload))
    in Hc.
  destruct Hc as [Hdtype _]. exact Hdtype.
Defined.

(** The two attributes the script sets reach everything built afterwards:
    the arguments given to [set_seed] and to the trainer carry
    [lr_decay_ratio = model_args.lr_decay_ratio] and are otherwise the parsed
    [training_args]; the data arguments bound in every conversion function
    have [always_pad_to_max_length = False], whatever was parsed, and
    otherwise the parsed values. *)
Theorem script_set_attributes (w : world) :
  let model_args := fst (fst (parsed w)) in
  let data_args := snd (fst (parsed w)) in
  let training_args := snd (parsed w) in
  (forall args,
      In (SetSeed args) (trace (main w)) ->
      ta_lr_decay_ratio args = Some (lr_decay_ratio model_args)
      /\ set_lr_decay_ratio args (lr_decay_ratio model_args)
         = set_lr_decay_ratio training_args (lr_decay_ratio model_args))
  /\ (exists args, In (SetSeed args) (trace (main w)))
  /\ (forall kw,
        In (NewLlamaTrainer kw) (trace (main w)) ->
        ta_lr_decay_ratio (tr_args kw) = Some (lr_decay_ratio model_args)
        /\ In (SetSeed (tr_args kw)) (trace (main w)))
  /\ (forall ds f,
        In (DatasetMap ds f) (trace (main w)) ->
        always_pad_to_max_length (tf_data_args f) = Some false
        /\ set_always_pad_to_max_length (tf_data_args f) false
           = set_always_pad_to_max_length data_args false).
Proof.
  intros model_args data_args training_args.
  assert (Hseed : In (SetSeed (training_args_of w)) (trace (main w))).
  { rewrite trace_main. apply in_or_app; left.
    unfold configure_calls. do 4 right. left. reflexivity. }
  split; [|split; [|split]].
  - intros args Hc. rewrite trace_main in Hc.
    apply in_app_or in Hc as [Hc | Hc].
    + find_call Hc. injection Hc as <-. split; reflexivity.
    + exfalso.
      apply in_app_or in Hc as [Hc | Hc]; [find_call Hc|].
      destruct (output_dir_conflict w || pipeline_conflict w);
        find_call Hc.
  - eexists. exact Hseed.
  - intros kw Hc. destruct (trainer_built w kw Hc) as [-> _].
    split; [reflexivity | exact Hseed].
  - intros ds f Hc.
    destruct (late_call_completed w _ Hc) as [_ Hfrom]; [cbn; lia|].
    find_call Hfrom; injection Hfrom as _ <-; split; reflexivity.
Qed.

(* ------------------------------------------------------------------ *)
(** ** Further properties of [strip] and of [compute_metrics_trainer] *)

Lemma lstrip_by_all (p : N -> bool) (s : PyStr.t) :
  Forall (fun c => p c = true) s -> PyStr.lstrip_by p s = [].
Proof.
  induction 1 as [|c s Hc _ IH]; cbn; [reflexivity|].
  rewrite Hc. exact IH.
Qed.

Lemma lstrip_by_dropped (p : N -> bool) (dropped s : PyStr.t) :
  Forall (fun c => p c = true) dropped ->
  PyStr.lstrip_by p (dropped ++ s) = PyStr.lstrip_by p s.
Proof.
  induction 1 as [|c dropped Hc _ IH]; cbn; [reflexivity|].
  rewrite Hc. exact IH.
Qed.

Lemma rstrip_by_dropped (p : N -> bool) (s dropped : PyStr.t) :
  Forall (fun c => p c = true) dropped ->
  PyStr.rstrip_by p (s ++ dropped) = PyStr.rstrip_by p s.
Proof.
  intros Hdropped. unfold PyStr.rstrip_by.
  rewrite rev_app_distr, lstrip_by_dropped; [reflexivity|].
  apply Forall_rev. exact Hdropped.
Qed.

Lemma lstrip_by_keeps (p : N -> bool) (c : N) (rest : PyStr.t) :
  p c = false -> PyStr.lstrip_by p (c :: rest) = c :: rest.
Proof. intros Hc. cbn. rewrite Hc. reflexivity. Qed.

Lemma rstrip_by_keeps (p : N -> bool) (rest : PyStr.t) (c : N) :
  p c = false -> PyStr.rstrip_by p (rest ++ [c]) = rest ++ [c].
Proof.
  intros Hc. unfold PyStr.rstrip_by.
  rewrite rev_app_distr. cbn [rev app].
  rewrite (lstrip_by_keeps p c (rev rest) Hc).
  cbn [rev]. rewrite rev_involutive. reflexivity.
Qed.

Lemma rstrip_by_idempotent (p : N -> bool) (s : PyStr.t) :
  PyStr.rstrip_by p (PyStr.rstrip_by p s) = PyStr.rstrip_by p s.
Proof.
  destruct (PyStr.rstrip_by p s) as [|c kept] eqn:Hkept using rev_ind;
    [reflexivity|].
  apply rstrip_by_keeps. exact (rstrip_by_last _ _ _ _ Hkept).
Qed.

(** Stripping both ends, as a function of the predicate. *)
Lemma strip_by_idempotent (p : N -> bool) (s : PyStr.t) :
  let strip_by s := PyStr.rstrip_by p (PyStr.lstrip_by p s) in
  strip_by (strip_by s) = strip_by s.
Proof.
  cbv beta zeta.
  assert (Hleft : PyStr.lstrip_by p
                    (PyStr.rstrip_by p (PyStr.lstrip_by p s))
                  = PyStr.rstrip_by p (PyStr.lstrip_by p s)).
  { destruct (rstrip_by_split p (PyStr.lstrip_by p s))
      as (dropped & Hsplit & _).
    destruct (PyStr.rstrip_by p (PyStr.lstrip_by p s)) as [|c kept];
      [reflexivity|].
    apply lstrip_by_keeps. cbn in Hsplit.
    exact (lstrip_by_head _ _ _ _ Hsplit). }
  rewrite Hleft. apply rstrip_by_idempotent.
Qed.

Lemma strip_by_padded (p : N -> bool) (before s after : PyStr.t) :
  Forall (fun c => p c = true) before ->
  Forall (fun c => p c = true) after ->
  PyStr.rstrip_by p (PyStr.lstrip_by p (before ++ s ++ after))
  = PyStr.rstrip_by p (PyStr.lstrip_by p s).
Proof.
  intros Hbefore Hafter. rewrite (lstrip_by_dropped p _ _ Hbefore).
  induction s as [|c s IH]; cbn [app].
  - rewrite (lstrip_by_all p _ Hafter). reflexivity.
  - cbn [PyStr.lstrip_by]. destruct (p c); [exact IH|].
    change (c :: s ++ after) with ((c :: s) ++ after).
    apply rstrip_by_dropped. exact Hafter.
Qed.

(** [strip] changes nothing exactly on the empty string and on strings whose
    first and last code points it would not drop. *)
Lemma strip_by_fixed_iff (p : N -> bool) (s : PyStr.t) :
  PyStr.rstrip_by p (PyStr.lstrip_by p s) = s
  <-> s = []
      \/ ((exists c rest, s = c :: rest /\ p c = false)
          /\ (exists rest c, s = rest ++ [c] /\ p c = false)).
Proof.
  split.
  - intros Hfixed.
    destruct (lstrip_by_split p s) as (before & Hs & _).
    destruct (rstrip_by_split p (PyStr.lstrip_by p s)) as (after & Ht & _).
    rewrite Hfixed in Ht.
    assert (Hlen : before = [] /\ after = []).
    { apply (f_equal (@List.length N)) in Hs, Ht.
      rewrite length_app in Hs, Ht.
      split; apply length_zero_iff_nil; lia. }
    destruct Hlen as [-> ->]. rewrite app_nil_r in Ht. cbn in Hs.
    destruct s as [|c rest]; [left; reflexivity|]. right. split.
    + exists c, rest. split; [reflexivity|].
      exact (lstrip_by_head _ _ _ _ Ht).
    + destruct (@exists_last _ (c :: rest)) as (front & z & Hlast);
        [discriminate|].
      exists front, z. split; [exact Hlast|].
      rewrite Ht, Hlast in Hfixed.
      exact (rstrip_by_last _ _ _ _ Hfixed).
  - intros [-> | [(c & rest & Hhead & Hc) (front & z & Hlast & Hz)]];
      [reflexivity|].
    rewrite Hhead, (lstrip_by_keeps p c rest Hc), <- Hhead, Hlast.
    apply rstrip_by_keeps. exact Hz.
Qed.

(** The equation of [compute_metrics_trainer]. *)
Lemma compute_metrics_trainer_eq
    (Score : Type)
    (batch_decode : tokenizer -> list (list Z) -> list PyStr.t)
    (compute_metrics : list PyStr.t -> list PyStr.t -> Score)
    (eval_preds : EvalPrediction) (tok : tokenizer) :
  compute_metrics_trainer batch_decode compute_metrics eval_preds tok
  = compute_metrics
      (map clean (batch_decode tok (map drop_ignored (predictions eval_preds))))
      (map clean (batch_decode tok (map drop_ignored (label_ids eval_preds)))).
Proof.
  unfold compute_metrics_trainer, clean, question_chars.
  cbn [app]. rewrite !map_map. reflexivity.
Qed.

(** C2, as stated, fails: scored by exact match through the script, the
    prediction " Par" matches the label "Par" followed by a newline, because
    the script strips the whitespace around both before it calls the metric;
    the metric applied to the decoded strings counts no match. *)
Lemma script_changes_what_is_scored :
  compute_metrics_trainer Scoring.decode Scoring.exact_matches
    Spaced.eval_preds (tokenizer_of Examples.fresh) = 1%nat
  /\ Scoring.exact_matches
       (Scoring.decode (tokenizer_of Examples.fresh)
          (predictions Spaced.eval_preds))
       (Scoring.decode (tokenizer_of Examples.fresh)
          (label_ids Spaced.eval_preds)) = 0%nat
  /\ compute_metrics_trainer Scoring.decode Scoring.exact_matches
       Spaced.eval_preds (tokenizer_of Examples.fresh)
     <> Scoring.exact_matches
          (Scoring.decode (tokenizer_of Examples.fresh)
             (predictions Spaced.eval_preds))
          (Scoring.decode (tokenizer_of Examples.fresh)
             (label_ids Spaced.eval_preds)).
Proof.
  split; [|split]; vm_compute; congruence.
Qed.

(** C2, amended.  The score is computed by the imported [compute_metrics],
    whose result [compute_metrics_trainer] returns unchanged, but the script
    prepares the two lists that are scored.  From every row of predictions
    and of labels it drops the entries equal to -100 and keeps the others in
    their order; it has the tokenizer decode the rows; and it strips the
    whitespace around every decoded string.  Each string scored is a
    contiguous piece of the decoded string so stripped, and is that whole
    string when it neither begins nor ends with a character of "question:".
    What the further [strip("question:")] makes of the other strings is left
    open here. *)
Theorem compute_metrics_trainer_prepares_then_delegates
    (batch_decode : tokenizer -> list (list Z) -> list PyStr.t)
    (eval_preds : EvalPrediction) (tok : tokenizer) :
  let stripped rows :=
    map (PyStr.strip None) (batch_decode tok (map drop_ignored rows)) in
  let question_free s :=
    forall c rest,
      s = c :: rest \/ s = rest ++ [c] ->
      PyStr.mem question_chars c = false in
  let prepared whole scored :=
    (exists before after, whole = before ++ scored ++ after)
    /\ (question_free whole -> scored = whole) in
  (exists preds labels,
      Forall2 prepared (stripped (predictions eval_preds)) preds
      /\ Forall2 prepared (stripped (label_ids eval_preds)) labels
      /\ forall (Score : Type)
                (compute_metrics : list PyStr.t -> list PyStr.t -> Score),
           compute_metrics_trainer batch_decode compute_metrics eval_preds tok
           = compute_metrics preds labels)
  /\ (forall row row',
        drop_ignored (row ++ row') = drop_ignored row ++ drop_ignored row')
  /\ drop_ignored [-100] = []
  /\ (forall v, v <> -100 -> drop_ignored [v] = [v]).
Proof.
  intros stripped question_free prepared.
  assert (Hprepared : forall s, prepared (PyStr.strip None s) (clean s)).
  { intros s. unfold prepared, clean.
    set (whole := PyStr.strip None s).
    unfold PyStr.strip. split.
    - destruct (strip_by_spec (PyStr.mem question_chars) whole)
        as ((before & after & Hwhole & _) & _).
      exists before, after. exact Hwhole.
    - intros Hfree. apply strip_by_fixed_iff.
      destruct whole as [|c rest]; [left; reflexivity|]. right. split.
      + exists c, rest. split; [reflexivity|].
        apply (Hfree c rest). left. reflexivity.
      + destruct (@exists_last _ (c :: rest)) as (front & z & Hlast);
          [discriminate|].
        exists front, z. split; [exact Hlast|].
        apply (Hfree z front). right. exact Hlast. }
  assert (Hrows : forall strings,
             Forall2 prepared (map (PyStr.strip None) strings)
               (map clean strings)).
  { induction strings as [|s strings IH]; cbn [map]; constructor;
      [apply Hprepared | exact IH]. }
  split; [|split; [|split]].
  - exists (map clean
              (batch_decode tok (map drop_ignored (predictions eval_preds)))),
      (map clean
         (batch_decode tok (map drop_ignored (label_ids eval_preds)))).
    split; [apply Hrows|]. split; [apply Hrows|].
    intros Score compute_metrics. apply compute_metrics_trainer_eq.
  - intros row row'. apply filter_app.
  - reflexivity.
  - intros v Hv. unfold drop_ignored. cbn.
    destruct (Z.eqb_spec v (-100)); [contradiction | reflexivity].
Qed.

(** Python's [str.strip] is idempotent, with or without an argument. *)
Theorem strip_idempotent (chars : option PyStr.t) (s : PyStr.t) :
  PyStr.strip chars (PyStr.strip chars s) = PyStr.strip chars s.
Proof.
  unfold PyStr.strip. apply strip_by_idempotent.
Qed.

(** Padding with -100 does not change the score: rows that differ only by
    runs of -100 in front and behind, a different run for every row, are
    scored alike. *)
Theorem score_ignores_padding
    (Score : Type)
    (batch_decode : tokenizer -> list (list Z) -> list PyStr.t)
    (compute_metrics : list PyStr.t -> list PyStr.t -> Score)
    (eval_preds padded : EvalPrediction) (tok : tokenizer) :
  let pads row row' :=
    exists n m, row' = repeat (-100) n ++ row ++ repeat (-100) m in
  Forall2 pads (predictions eval_preds) (predictions padded) ->
  Forall2 pads (label_ids eval_preds) (label_ids padded) ->
  compute_metrics_trainer batch_decode compute_metrics padded tok
  = compute_metrics_trainer batch_decode compute_metrics eval_preds tok.
Proof.
  intros pads Hpreds Hlabels.
  assert (Hpad : forall n, drop_ignored (repeat (-100) n) = []).
  { induction n as [|n IH]; [reflexivity | exact IH]. }
  assert (Hrows : forall rows rows',
             Forall2 pads rows rows' ->
             map drop_ignored rows' = map drop_ignored rows).
  { induction 1 as [|row row' rows rows' (n & m & ->) _ IH];
      [reflexivity|].
    cbn [map]. rewrite IH. f_equal. unfold drop_ignored.
    rewrite !filter_app. fold (drop_ignored (repeat (-100) n)).
    fold (drop_ignored (repeat (-100) m)).
    rewrite !Hpad, app_nil_r. reflexivity. }
  rewrite !compute_metrics_trainer_eq.
  rewrite (Hrows _ _ Hpreds), (Hrows _ _ Hlabels). reflexivity.
Qed.

Lemma score_ignores_padding_witness :
  compute_metrics_trainer Scoring.decode Scoring.exact_matches
    {| predictions := [[-100; -100; 115; 117; 110]];
       label_ids := [[115; 117; 110; 115; 101; 116; -100]] |}
    (tokenizer_of Examples.fresh)
  = compute_metrics_trainer Scoring.decode Scoring.exact_matches
      Scoring.eval_preds (tokenizer_of Examples.fresh).
Proof.
  apply (score_ignores_padding nat Scoring.decode Scoring.exact_matches
           Scoring.eval_preds).
  - constructor; [|constructor]. exists 2%nat, 0%nat. reflexivity.
  - constructor; [|constructor]. exists 0%nat, 1%nat. reflexivity.
Defined.

(** Whitespace around a decoded string does not change the score: two
    tokenizers whose decoded strings differ, string by string, only by runs
    of whitespace in front and behind, a different run for every string, are
    scored alike. *)
Theorem score_ignores_surrounding_whitespace
    (Score : Type)
    (batch_decode batch_decode' : tokenizer -> list (list Z) -> list PyStr.t)
    (compute_metrics : list PyStr.t -> list PyStr.t -> Score)
    (eval_preds : EvalPrediction) (tok : tokenizer) :
  let wrapped s s' :=
    exists before after,
      Forall (fun c => PyStr.is_whitespace c = true) before
      /\ Forall (fun c => PyStr.is_whitespace c = true) after
      /\ s' = before ++ s ++ after in
  Forall2 wrapped
    (batch_decode tok (map drop_ignored (predictions eval_preds)))
    (batch_decode' tok (map drop_ignored (predictions eval_preds))) ->
  Forall2 wrapped
    (batch_decode tok (map drop_ignored (label_ids eval_preds)))
    (batch_decode' tok (map drop_ignored (label_ids eval_preds))) ->
  compute_metrics_trainer batch_decode' compute_metrics eval_preds tok
  = compute_metrics_trainer batch_decode compute_metrics eval_preds tok.
Proof.
  intros wrapped Hpreds Hlabels. rewrite !compute_metrics_trainer_eq.
  assert (Hclean : forall strings strings',
             Forall2 wrapped strings strings' ->
             map clean strings' = map clean strings).
  { induction 1 as [|s s' strings strings'
                      (before & after & Hbefore & Hafter & ->) _ IH];
      [reflexivity|].
    cbn [map]. rewrite IH. f_equal. unfold clean, PyStr.strip.
    rewrite (strip_by_padded _ _ s _ Hbefore Hafter). reflexivity. }
  rewrite (Hclean _ _ Hpreds), (Hclean _ _ Hlabels). reflexivity.
Qed.

Lemma score_ignores_surrounding_whitespace_witness :
  compute_metrics_trainer
    (fun tok rows =>
       map (fun row => repeat 32%N (List.length row)
                       ++ map Z.to_N row ++ [10%N]) rows)
    Scoring.exact_matches Spaced.mixed (tokenizer_of Examples.fresh)
  = compute_metrics_trainer Scoring.decode Scoring.exact_matches
      Spaced.mixed (tokenizer_of Examples.fresh).
Proof.
  apply (score_ignores_surrounding_whitespace nat Scoring.decode
           (fun tok rows =>
              map (fun row => repeat 32%N (List.length row)
                              ++ map Z.to_N row ++ [10%N]) rows)
           Scoring.exact_matches Spaced.mixed (tokenizer_of Examples.fresh));
    (constructor;
     [exists [32%N; 32%N], [10%N]; repeat constructor
     |constructor;
      [exists [32%N; 32%N; 32%N], [10%N]; repeat constructor
      |constructor]]).
Defined.

Lemma question_chars_not_whitespace (c : N) :
  PyStr.mem question_chars c = true -> PyStr.is_whitespace c = false.
Proof.
  unfold PyStr.mem. intros Hc. apply existsb_exists in Hc as (q & Hq & Hcq).
  apply N.eqb_eq in Hcq. subst q.
  vm_compute in Hq.
  repeat (destruct Hq as [<- | Hq]; [reflexivity|]).
  contradiction.
Qed.

Lemma clean_question_letters (s : PyStr.t) :
  Forall (fun c => PyStr.mem question_chars c = true) s -> clean s = [].
Proof.
  intros Hs. unfold clean, PyStr.strip.
  assert (Hws : PyStr.rstrip_by PyStr.is_whitespace
                  (PyStr.lstrip_by PyStr.is_whitespace s) = s).
  { apply strip_by_fixed_iff.
    destruct s as [|c rest]; [left; reflexivity|]. right.
    rewrite Forall_forall in Hs. split.
    - exists c, rest. split; [reflexivity|].
      apply question_chars_not_whitespace, Hs. left. reflexivity.
    - destruct (@exists_last _ (c :: rest)) as (front & z & Hlast);
        [discriminate|].
      exists front, z. split; [exact Hlast|].
      apply question_chars_not_whitespace, Hs. rewrite Hlast.
      apply in_or_app. right. left. reflexivity. }
  rewrite Hws, (lstrip_by_all _ _ Hs). reflexivity.
Qed.

(** A prediction or label that decodes to nothing but characters of
    "question:" is scored as the empty string, whatever the other strings of
    the batch are: [strip("question:")] drops characters of that set, not
    the prefix.  Answers such as "no", "one" or "ten" reach
    [compute_metrics] empty. *)
Theorem question_letters_scored_empty
    (batch_decode : tokenizer -> list (list Z) -> list PyStr.t)
    (eval_preds : EvalPrediction) (tok : tokenizer) :
  let vanishes decoded scored :=
    Forall (fun c => PyStr.mem question_chars c = true) decoded ->
    scored = [] in
  exists preds labels,
    (forall (Score : Type)
            (compute_metrics : list PyStr.t -> list PyStr.t -> Score),
        compute_metrics_trainer batch_decode compute_metrics eval_preds tok
        = compute_metrics preds labels)
    /\ Forall2 vanishes
         (batch_decode tok (map drop_ignored (predictions eval_preds))) preds
    /\ Forall2 vanishes
         (batch_decode tok (map drop_ignored (label_ids eval_preds))) labels.
Proof.
  intros vanishes.
  assert (Hrows : forall strings,
             Forall2 vanishes strings (map clean strings)).
  { induction strings as [|s strings IH]; cbn [map]; constructor;
      [|exact IH].
    intros Hletters. apply clean_question_letters, Hletters. }
  exists (map clean
            (batch_decode tok (map drop_ignored (predictions eval_preds)))),
    (map clean (batch_decode tok (map drop_ignored (label_ids eval_preds)))).
  split; [|split; apply Hrows].
  intros Score compute_metrics. apply compute_metrics_trainer_eq.
Qed.

Lemma question_letters_scored_empty_witness :
  exists rest,
    compute_metrics_trainer Scoring.decode (fun preds _ => preds)
      Spaced.mixed (tokenizer_of Examples.fresh)
    = [] :: rest.
Proof.
  destruct (question_letters_scored_empty Scoring.decode Spaced.mixed
              (tokenizer_of Examples.fresh))
    as (preds & labels & Hscore & Hpreds & _).
  rewrite (Hscore _ (fun preds _ => preds)).
  vm_compute in Hpreds.
  inversion Hpreds as [|decoded scored strings rest Hvanishes _ Hd Hs].
  exists rest. f_equal. apply Hvanishes. repeat constructor.
Defined.

(** When [compute_metrics_trainer] does score the decoded strings as they
    are: trimming leaves a string unchanged exactly when it is empty or
    neither its first nor its last character is whitespace or a character of
    "question:"; if all decoded strings are such, the score is that of
    [compute_metrics] on the decoded rows. *)
Theorem untrimmed_strings_scored_as_decoded
    (Score : Type)
    (batch_decode : tokenizer -> list (list Z) -> list PyStr.t)
    (compute_metrics : list PyStr.t -> list PyStr.t -> Score)
    (eval_preds : EvalPrediction) (tok : tokenizer) :
  let kept c :=
    PyStr.is_whitespace c = false /\ PyStr.mem question_chars c = false in
  let clean_ends s :=
    forall c rest, s = c :: rest \/ s = rest ++ [c] -> kept c in
  (forall s, clean s = s <-> clean_ends s)
  /\ (Forall clean_ends
        (batch_decode tok (map drop_ignored (predictions eval_preds))) ->
      Forall clean_ends
        (batch_decode tok (map drop_ignored (label_ids eval_preds))) ->
      compute_metrics_trainer batch_decode compute_metrics eval_preds tok
      = compute_metrics
          (batch_decode tok (map drop_ignored (predictions eval_preds)))
          (batch_decode tok (map drop_ignored (label_ids eval_preds)))).
Proof.
  intros kept clean_ends.
  assert (Hiff : forall s, clean s = s <-> clean_ends s).
  { intros s. unfold clean, PyStr.strip. split.
    - intros Hfixed.
      set (inner := PyStr.rstrip_by PyStr.is_whitespace
                      (PyStr.lstrip_by PyStr.is_whitespace s)) in *.
      destruct (strip_by_spec PyStr.is_whitespace s)
        as ((b & a & Hs & _) & _).
      cbv zeta in Hs. fold inner in Hs.
      destruct (strip_by_spec (PyStr.mem question_chars) inner)
        as ((b' & a' & Hinner & _) & _).
      cbv zeta in Hinner. rewrite Hfixed in Hinner.
      assert (Hlen : b = [] /\ a = [] /\ b' = [] /\ a' = []).
      { pose proof (f_equal (@List.length N) Hs) as Hl.
        pose proof (f_equal (@List.length N) Hinner) as Hl'.
        rewrite !length_app in Hl, Hl'.
        repeat split; apply length_zero_iff_nil; lia. }
      destruct Hlen as (-> & -> & -> & ->).
      rewrite app_nil_r in Hs, Hinner. cbn [app] in Hs, Hinner.
      assert (Hws : PyStr.rstrip_by PyStr.is_whitespace
                      (PyStr.lstrip_by PyStr.is_whitespace s) = s)
        by (fold inner; congruence).
      assert (Hq : PyStr.rstrip_by (PyStr.mem question_chars)
                     (PyStr.lstrip_by (PyStr.mem question_chars) s) = s)
        by (rewrite Hinner in Hfixed; exact Hfixed).
      apply strip_by_fixed_iff in Hws, Hq.
      intros c rest Hends.
      destruct Hws as [-> | [(c1 & r1 & H1 & Hc1) (f1 & z1 & Hl1 & Hz1)]].
      { destruct Hends as [H | H]; [discriminate H|].
        destruct rest; discriminate H. }
      destruct Hq as [-> | [(c2 & r2 & H2 & Hc2) (f2 & z2 & Hl2 & Hz2)]];
        [discriminate H1|].
      destruct Hends as [H | H].
      + rewrite H in H1, H2. injection H1 as <- _. injection H2 as <- _.
        split; assumption.
      + rewrite H in Hl1, Hl2.
        apply app_inj_tail in Hl1 as [_ <-].
        apply app_inj_tail in Hl2 as [_ <-].
        split; assumption.
    - intros Hends.
      assert (Hfix : forall p,
                 (forall c, kept c -> p c = false) ->
                 PyStr.rstrip_by p (PyStr.lstrip_by p s) = s).
      { intros p Hp. apply strip_by_fixed_iff.
        destruct s as [|c rest]; [left; reflexivity|]. right. split.
        - exists c, rest. split; [reflexivity|].
          apply Hp, (Hends c rest). left. reflexivity.
        - destruct (@exists_last _ (c :: rest)) as (front & z & Hlast);
            [discriminate|].
          exists front, z. split; [exact Hlast|].
          apply Hp, (Hends z front). right. exact Hlast. }
      rewrite (Hfix PyStr.is_whitespace) by (intros c [Hc _]; exact Hc).
      apply Hfix. intros c [_ Hc]. exact Hc. }
  split; [exact Hiff|].
  intros Hpreds Hlabels. rewrite compute_metrics_trainer_eq.
  assert (Hmap : forall strings,
             Forall clean_ends strings -> map clean strings = strings).
  { induction 1 as [|s strings Hs _ IH]; [reflexivity|].
    cbn [map]. rewrite IH. f_equal. apply Hiff, Hs. }
  rewrite (Hmap _ Hpreds), (Hmap _ Hlabels). reflexivity.
Qed.

Lemma untrimmed_strings_scored_as_decoded_witness :
  compute_metrics_trainer Scoring.decode Scoring.exact_matches
    {| predictions := [[80; 97; 114]]; label_ids := [[80; 97; 114]] |}
    (tokenizer_of Examples.fresh)
  = Scoring.exact_matches [[80; 97; 114]%N] [[80; 97; 114]%N].
Proof.
  destruct (untrimmed_strings_scored_as_decoded nat Scoring.decode
              Scoring.exact_matches
              {| predictions := [[80; 97; 114]];
                 label_ids := [[80; 97; 114]] |}
              (tokenizer_of Examples.fresh)) as [Hiff Hscore].
  apply Hscore; (constructor; [|constructor]); apply Hiff; reflexivity.
Defined.

(** With a tokenizer that decodes one string per row, [compute_metrics]
    receives as many predictions as [eval_preds.predictions] has rows and as
    many labels as [eval_preds.label_ids] has rows, whether or not the two
    counts agree; an empty evaluation set is scored on two empty lists. *)
Theorem one_scored_string_per_row
    (batch_decode : tokenizer -> list (list Z) -> list PyStr.t)
    (eval_preds : EvalPrediction) (tok : tokenizer) :
  (forall rows, List.length (batch_decode tok rows) = List.length rows) ->
  exists preds labels,
    List.length preds = List.length (predictions eval_preds)
    /\ List.length labels = List.length (label_ids eval_preds)
    /\ (predictions eval_preds = [] -> preds = [])
    /\ (label_ids eval_preds = [] -> labels = [])
    /\ forall (Score : Type)
              (compute_metrics : list PyStr.t -> list PyStr.t -> Score),
         compute_metrics_trainer batch_decode compute_metrics eval_preds tok
         = compute_metrics preds labels.
Proof.
  intros Hrows.
  exists (map clean
            (batch_decode tok (map drop_ignored (predictions eval_preds)))),
    (map clean (batch_decode tok (map drop_ignored (label_ids eval_preds)))).
  assert (Hlen : forall rows,
             List.length (map clean (batch_decode tok (map drop_ignored rows)))
             = List.length rows).
  { intros rows. rewrite length_map, Hrows, length_map. reflexivity. }
  split; [apply Hlen|]. split; [apply Hlen|]. split; [|split].
  - intros Hnone. apply length_zero_iff_nil. rewrite Hlen, Hnone.
    reflexivity.
  - intros Hnone. apply length_zero_iff_nil. rewrite Hlen, Hnone.
    reflexivity.
  - intros Score compute_metrics. apply compute_metrics_trainer_eq.
Qed.

Lemma one_scored_string_per_row_witness :
  exists preds labels,
    List.length preds = 1%nat /\ List.length labels = 1%nat
    /\ compute_metrics_trainer Scoring.decode Scoring.exact_matches
         Scoring.eval_preds (tokenizer_of Examples.fresh)
       = Scoring.exact_matches preds labels.
Proof.
  destruct (one_scored_string_per_row Scoring.decode Scoring.eval_preds
              (tokenizer_of Examples.fresh))
    as (preds & labels & Hp & Hl & _ & _ & Hscore).
  - intros rows. apply length_map.
  - exists preds, labels. split; [exact Hp|]. split; [exact Hl|].
    apply Hscore.
Defined.

(* ------------------------------------------------------------------ *)
(** ** Adapter order, and runs that neither train nor evaluate *)

(** In a run that raises nothing the adapter calls are, in this order: for
    LoRA, if requested, the wrapper, [mark_only_lora_as_trainable] and
    [print_trainable_parameters]; then for prefix tuning, if requested, the
    wrapper, [mark_only_prefix_as_trainable] and
    [print_trainable_parameters].  LoRA is applied first, so with both
    adapters the prefix wraps the LoRA model and the last marking is the
    prefix one. *)
Theorem adapter_calls_in_order (w : world) :
  result (main w) = Returned tt ->
  let model_args := fst (fst (parsed w)) in
  exists lora_config prefix_config with_lora,
    calls_of_step WrapModel (trace (main w))
    = (if lora model_args
       then [ NewLoRAModel (loaded_model w) lora_config;
              MarkOnlyLoraAsTrainable; PrintTrainableParameters ]
       else [])
      ++ (if prefix_tuning model_args
          then [ NewPrefixModel with_lora prefix_config;
                 MarkOnlyPrefixAsTrainable; PrintTrainableParameters ]
          else [])
    /\ with_lora
       = (if lora model_args
          then LoRAModel (loaded_model w) lora_config
          else loaded_model w)
    /\ List.length
         (filter (fun e => match e with
                           | PrintTrainableParameters => true
                           | _ => false
                           end) (trace (main w)))
       = ((if lora model_args then 1 else 0)
          + (if prefix_tuning model_args then 1 else 0))%nat.
Proof.
  intros Hret model_args.
  exists (lora_config_of w), (prefix_config_for w (model_after_lora w)),
    (model_after_lora w).
  split; [|split].
  - apply (calls_of_step_completed w WrapModel Hret).
  - reflexivity.
  - assert (Hcount : forall calls,
               List.length
                 (filter (fun e => match e with
                                   | PrintTrainableParameters => true
                                   | _ => false
                                   end) calls)
               = List.length
                   (filter (fun e => match e with
                                     | PrintTrainableParameters => true
                                     | _ => false
                                     end) (calls_of_step WrapModel calls))).
    { intros calls. unfold calls_of_step.
      induction calls as [|e calls IH]; [reflexivity|].
      destruct e; cbn; try exact IH. f_equal. exact IH. }
    rewrite Hcount, (calls_of_step_completed w WrapModel Hret).
    unfold lora_calls, prefix_calls, model_args_of. fold model_args.
    destruct (lora model_args), (prefix_tuning model_args); reflexivity.
Qed.

Lemma adapter_calls_in_order_witness :
  result (main Adapters.both) = Returned tt
  /\ exists lora_config prefix_config,
       calls_of_step WrapModel (trace (main Adapters.both))
       = [ NewLoRAModel (loaded_model Adapters.both) lora_config;
           MarkOnlyLoraAsTrainable; PrintTrainableParameters;
           NewPrefixModel (LoRAModel (loaded_model Adapters.both) lora_config)
             prefix_config;
           MarkOnlyPrefixAsTrainable; PrintTrainableParameters ].
Proof.
  assert (Hret : result (main Adapters.both) = Returned tt) by reflexivity.
  split; [exact Hret|].
  destruct (adapter_calls_in_order Adapters.both Hret)
    as (lora_config & prefix_config & with_lora & Hcalls & Hwith & _).
  exists lora_config, prefix_config.
  cbn in Hwith. rewrite <- Hwith. exact Hcalls.
Defined.

(** With neither [do_train] nor [do_eval], [main] cannot raise, whatever the
    output directory holds and whatever the pipeline degree: it loads the
    model and the tokenizer and constructs the trainer with no dataset and no
    metrics closure, but loads no dataset and never calls the trainer. *)
Theorem idle_run (w : world) :
  do_train (snd (parsed w)) = false ->
  do_eval (snd (parsed w)) = false ->
  result (main w) = Returned tt
  /\ calls_of_step BuildDatasets (trace (main w)) = []
  /\ calls_of_step UseTrainer (trace (main w)) = []
  /\ (exists cls name kw,
         In (ModelFromPretrained cls name kw) (trace (main w)))
  /\ (forall path, ~ In (GetLastCheckpoint path) (trace (main w)))
  /\ exists kw,
       In (NewLlamaTrainer kw) (trace (main w))
       /\ train_dataset kw = None /\ eval_dataset kw = None
       /\ compute_metrics_arg kw = None.
Proof.
  intros Htrain Heval.
  assert (Hlooks : looks_for_checkpoint w = false).
  { unfold looks_for_checkpoint.
    cbn [training_args_of set_lr_decay_ratio do_train].
    rewrite Htrain, andb_false_r. reflexivity. }
  assert (Hdir : output_dir_conflict w = false).
  { unfold output_dir_conflict. rewrite Hlooks. reflexivity. }
  assert (Hpipe : pipeline_conflict w = false).
  { unfold pipeline_conflict.
    cbn [training_args_of set_lr_decay_ratio do_eval].
    rewrite Heval, andb_false_r. reflexivity. }
  assert (Hret : result (main w) = Returned tt).
  { rewrite (main_completes _ Hdir Hpipe). reflexivity. }
  split; [exact Hret|]. split; [|split; [|split; [|split]]].
  - rewrite (calls_of_step_completed w BuildDatasets Hret).
    unfold dataset_calls.
    cbn [training_args_of set_lr_decay_ratio do_train do_eval].
    rewrite Htrain, Heval. reflexivity.
  - rewrite (calls_of_step_completed w UseTrainer Hret).
    unfold training_calls, evaluation_calls.
    cbn [training_args_of set_lr_decay_ratio do_train do_eval].
    rewrite Htrain, Heval. reflexivity.
  - exists (model_class_of w), (model_name_or_path (model_args_of w)),
      (kwargs_of w).
    rewrite (completed_trace _ Hret).
    do 2 (apply in_or_app; right). left. reflexivity.
  - intros path Hc. rewrite trace_main, Hdir, Hpipe in Hc.
    unfold checkpoint_calls in Hc. cbv zeta in Hc. rewrite Hlooks in Hc.
    cbn [orb] in Hc. find_call Hc.
  - exists (trainer_kwargs_of w). split.
    + apply trainer_constructed; [exact Hret | reflexivity].
    + unfold trainer_kwargs_of.
      cbn [train_dataset eval_dataset compute_metrics_arg training_args_of
           set_lr_decay_ratio do_train do_eval].
      rewrite Htrain, Heval, andb_false_r. repeat split.
Qed.

Lemma idle_run_witness :
  output_dir_conflict Idle.run = false
  /\ result (main Idle.run) = Returned tt
  /\ calls_of_step UseTrainer (trace (main Idle.run)) = [].
Proof.
  split; [reflexivity|].
  split.
  - apply (proj1 (idle_run Idle.run eq_refl eq_refl)).
  - apply (proj1 (proj2 (proj2 (idle_run Idle.run eq_refl eq_refl)))).
Defined.
